(** * SAP HANA vector store, retrieval module and vector-store API

    A shallow embedding of [dspy/retrieve/sap_hana_rm.py] and
    [dspy/frontend/api/vector_store_api.py].

    Python code that talks to the outside (the hdbcli driver, the DSPy
    settings object, the embedder, the process environment, the clock) is
    written as a tree of calls; the environment answers every call with a
    value or with an exception.  Exceptions are values of [exn]; the
    [lru_cache] in front of [_get_embedding] is the only state of the
    process itself and is threaded explicitly, so that it survives an
    exception exactly as it does in Python.

    Calls to [logger] have no influence on control flow or results and are
    left out. *)

From Stdlib Require Import List String Ascii ZArith QArith Bool Lia.
Import ListNotations.
Local Open Scope string_scope.
Local Open Scope Z_scope.

Set Implicit Arguments.
Set Warnings "-register-all".

(** ** Python values *)

(** Python floats are carried around, compared and printed; the one
    computation on them is the subtraction of two clock readings.  They are
    represented by rationals. *)
Definition float := Q.

Inductive value : Type :=
| VNone
| VBool (b : bool)
| VInt (n : Z)
| VFloat (x : float)
| VStr (s : string)
| VList (l : list value)
| VDict (d : list (string * value)).

(** A [dict] with string keys: association list in insertion order, keys
    unique. *)
Definition dict := list (string * value).
Definition vector := list float.

Definition of_vector (v : vector) : value := VList (map VFloat v).

Fixpoint dict_lookup (d : dict) (key : string) : option value :=
  match d with
  | [] => None
  | (k, v) :: rest => if String.eqb k key then Some v else dict_lookup rest key
  end.

(** [d.get(key, default)] *)
Definition dict_get (d : dict) (key : string) (default : value) : value :=
  match dict_lookup d key with
  | Some v => v
  | None => default
  end.

Definition dict_keys (d : dict) : list string := map fst d.

(** *** [repr], as used by the f-string in [similarity_search] *)

Fixpoint digits_of (fuel : nat) (n : Z) (acc : string) : string :=
  match fuel with
  | O => acc
  | S fuel' =>
      let d := String (ascii_of_nat (48 + Z.to_nat (n mod 10))) acc in
      if n / 10 =? 0 then d else digits_of fuel' (n / 10) d
  end.

Definition repr_int (n : Z) : string :=
  if n <? 0 then "-" ++ digits_of (S (Z.to_nat (Z.log2 (- n)))) (- n) ""
  else digits_of (S (Z.to_nat (Z.log2 n))) n "".

(** Floats print as [numerator/denominator]; CPython prints the shortest
    decimal that round-trips.  No statement below depends on it. *)
Definition repr_float (x : float) : string :=
  repr_int (Qnum x) ++ "/" ++ repr_int (Zpos (Qden x)).

Fixpoint join (sep : string) (l : list string) : string :=
  match l with
  | [] => ""
  | [s] => s
  | s :: rest => s ++ sep ++ join sep rest
  end.

(** Strings are quoted with ['] and printed without escapes. *)
Fixpoint repr (v : value) : string :=
  match v with
  | VNone => "None"
  | VBool true => "True"
  | VBool false => "False"
  | VInt n => repr_int n
  | VFloat x => repr_float x
  | VStr s => "'" ++ s ++ "'"
  | VList l => "[" ++ join ", " (map repr l) ++ "]"
  | VDict d =>
      "{" ++ join ", " (map (fun kv => "'" ++ fst kv ++ "': " ++ repr (snd kv)) d) ++ "}"
  end.

(** ** Exceptions *)

Inductive exn : Type :=
| ImportError (msg : string)
| ValueError (msg : string)
| TypeError (msg : string)
| IndexError (msg : string)
| KeyError (msg : string)
| AttributeError (msg : string)
| HTTPException (status_code : Z) (detail : string)
| DriverError (errorcode : Z) (errortext : string)   (* hdbcli's dbapi.Error *)
| OtherException (msg : string).

(** [str(e)] *)
Definition str_exn (e : exn) : string :=
  match e with
  | ImportError m | ValueError m | TypeError m | IndexError m | KeyError m
  | AttributeError m | OtherException m => m
  | HTTPException _ detail => detail
  | DriverError _ text => text
  end.

Definition is_HTTPException (e : exn) : bool :=
  match e with HTTPException _ _ => true | _ => false end.

Definition is_ImportError (e : exn) : bool :=
  match e with ImportError _ => true | _ => false end.

Definition HTTP_503_SERVICE_UNAVAILABLE : Z := 503.
Definition HTTP_500_INTERNAL_SERVER_ERROR : Z := 500.

(** ** Objects *)

Definition connection := nat.   (* a dbapi connection object *)
Definition cursor := nat.       (* a dbapi cursor object *)
Definition embedder := nat.     (* the object in [dspy.settings.embedder] *)

(** [HanaVectorStore]: the attributes set by [__init__]. *)
Record HanaVectorStore : Type := {
  hs_connection : option connection;
  hs_host : option string;
  hs_port : Z;
  hs_user : option string;
  hs_password : option string;
  hs_schema : string;
  hs_table : string;
  hs_dimension : Z;
  hs_table_fqn : string
}.

(** Any other object a user may have put into [dspy.settings.vector_store]:
    an attribute is [None] when the object does not have it. *)
Record DuckStore : Type := {
  duck_id : nat;
  duck_connection : option (option connection);
  duck_host : option value;
  duck_schema : option value;
  duck_table : option value
}.

Inductive store_object : Type :=
| Hana (s : HanaVectorStore)
| Duck (d : DuckStore).

(** ** SQL statements handed to [cursor.execute]

    Each constructor stands for one statement text of the source; its [?]
    placeholders are filled positionally from the parameter list. *)
Inductive stmt : Type :=
| table_check_query
    (* SELECT COUNT( * ) FROM SYS.TABLES WHERE SCHEMA_NAME = ? AND TABLE_NAME = ? *)
| create_table_query (table_fqn : string) (dimension : Z)
    (* CREATE TABLE fqn (id NVARCHAR(100) PRIMARY KEY, text NCLOB,
                         vector REAL ARRAY(dimension), metadata NCLOB) *)
| create_index_query (table : string) (table_fqn : string)
    (* CREATE INDEX table_vector_idx ON fqn(vector) INVERTED INDIVIDUAL *)
| insert_query (table_fqn : string)
    (* UPSERT fqn (id, text, vector, metadata) VALUES (?, ?, ?, ?) *)
| search_query (table_fqn : string) (where_clause : bool)
    (* SELECT id, text, metadata, COSINE_SIMILARITY(vector, ?) AS score
       FROM fqn [ WHERE metadata LIKE ? ] ORDER BY score DESC LIMIT ? *)
| select_dummy_query.
    (* SELECT 1 FROM DUMMY *)

(** The [?] placeholders of a statement, in the order they occur in its
    text; [cursor.execute(sql, params)] gives the i-th parameter to the i-th
    placeholder. *)
Inductive placeholder : Type :=
| ph_schema_name | ph_table_name                (* table_check_query *)
| ph_id | ph_text | ph_vector | ph_metadata     (* insert_query *)
| ph_cosine_similarity | ph_like | ph_limit.    (* search_query *)

Definition placeholders (sql : stmt) : list placeholder :=
  match sql with
  | table_check_query => [ph_schema_name; ph_table_name]
  | create_table_query _ _ => []
  | create_index_query _ _ => []
  | insert_query _ => [ph_id; ph_text; ph_vector; ph_metadata]
  | search_query _ where_clause =>
      [ph_cosine_similarity] ++ (if where_clause then [ph_like] else []) ++ [ph_limit]
  | select_dummy_query => []
  end%list.

Definition binding (sql : stmt) (params : list value) : list (placeholder * value) :=
  combine (placeholders sql) params.

Definition placeholder_eqb (a b : placeholder) : bool :=
  match a, b with
  | ph_schema_name, ph_schema_name | ph_table_name, ph_table_name
  | ph_id, ph_id | ph_text, ph_text | ph_vector, ph_vector
  | ph_metadata, ph_metadata
  | ph_cosine_similarity, ph_cosine_similarity
  | ph_like, ph_like | ph_limit, ph_limit => true
  | _, _ => false
  end.

(** The parameter a placeholder received, [None] if it received none. *)
Definition bound (ph : placeholder) (b : list (placeholder * value)) : option value :=
  option_map snd (find (fun pv => placeholder_eqb (fst pv) ph) b).

(** ** Calls into the environment *)

Inductive call : Type :=
| has_hdbcli                                   (* the module flag HAS_HDBCLI *)
| settings_has_vector_store                    (* hasattr(dspy.settings, 'vector_store') *)
| settings_vector_store                        (* dspy.settings.vector_store *)
| settings_set_vector_store (s : store_object) (* dspy.settings.vector_store = s *)
| settings_embedder                            (* dspy.settings.embedder *)
| environ_get (name : string)                  (* os.environ.get(name) *)
| int_of (s : string)                          (* int(s) *)
| import_module (name : string)
| embedder_encode (e : embedder) (texts : list string)
| dbapi_connect (address : option string) (port : Z) (user password : option string)
| connection_cursor (c : connection)
| cursor_execute (cur : cursor) (sql : stmt) (params : list value)
| cursor_fetchone (cur : cursor)
| cursor_fetchall (cur : cursor)
| cursor_close (cur : cursor)
| connection_commit (c : connection)
| connection_close (c : connection)
| time_time
| duck_similarity_search (d : DuckStore) (query_vector : vector) (k : Z)
                         (filter_dict : option dict).

Definition answer (c : call) : Type :=
  match c with
  | has_hdbcli => bool
  | settings_has_vector_store => bool
  | settings_vector_store => option store_object
  | settings_set_vector_store _ => unit
  | settings_embedder => option embedder
  | environ_get _ => option string
  | int_of _ => Z
  | import_module _ => unit
  | embedder_encode _ _ => list vector
  | dbapi_connect _ _ _ _ => connection
  | connection_cursor _ => cursor
  | cursor_execute _ _ _ => unit
  | cursor_fetchone _ => option (list value)
  | cursor_fetchall _ => list (list value)
  | cursor_close _ => unit
  | connection_commit _ => unit
  | connection_close _ => unit
  | time_time => float
  | duck_similarity_search _ _ _ _ => list dict
  end.

(** ** Programs *)

Inductive prog (A : Type) : Type :=
| Ret (a : A)
| Vis (c : call) (k : exn + answer c -> prog A).

Arguments Ret {A} a.
Arguments Vis {A} c k.

Fixpoint pbind {A B : Type} (p : prog A) (f : A -> prog B) : prog B :=
  match p with
  | Ret a => f a
  | Vis c k => Vis c (fun r => pbind (k r) f)
  end.

(** The [lru_cache] of [SAPHanaRM._get_embedding]: entries keyed by the
    arguments [(self, text)], most recently used first. *)
Definition lru_key : Type := nat * string.
Definition lru := list (lru_key * vector).

(** A Python computation: it starts from a cache, makes calls, and ends
    with a cache and either an exception or a value. *)
Definition M (A : Type) : Type := lru -> prog (lru * (exn + A)).

Definition ret {A : Type} (a : A) : M A := fun st => Ret (st, inr a).

Definition raise {A : Type} (e : exn) : M A := fun st => Ret (st, inl e).

Definition bind {A B : Type} (m : M A) (f : A -> M B) : M B :=
  fun st =>
    pbind (m st) (fun r =>
      match r with
      | (st', inr a) => f a st'
      | (st', inl e) => Ret (st', inl e)
      end).

(** [try: m  except Exception as e: handler e] *)
Definition try_except {A : Type} (m : M A) (handler : exn -> M A) : M A :=
  fun st =>
    pbind (m st) (fun r =>
      match r with
      | (st', inr a) => Ret (st', inr a)
      | (st', inl e) => handler e st'
      end).

(** One call: its exception, if any, is raised at the call site. *)
Definition do (c : call) : M (answer c) :=
  fun st => Vis c (fun r => Ret (st, r)).

Definition get_cache : M lru := fun st => Ret (st, inr st).
Definition put_cache (st' : lru) : M unit := fun _ => Ret (st', inr tt).

Declare Scope py_scope.
Delimit Scope py_scope with py.
Notation "x <- m ;; k" := (bind m (fun x => k))
  (at level 61, m at next level, right associativity) : py_scope.
Notation "m ;;; k" := (bind m (fun _ => k))
  (at level 61, right associativity) : py_scope.
Local Open Scope py_scope.

(** [for x in l: body x], collecting the values of the body. *)
Fixpoint for_each {A B : Type} (l : list A) (body : A -> M B) : M (list B) :=
  match l with
  | [] => ret []
  | x :: rest => y <- body x ;; ys <- for_each rest body ;; ret (y :: ys)
  end.

(** ** Running a program against an environment *)

Definition handler (W : Type) : Type := forall c : call, W -> W * (exn + answer c).

(** What the environment saw: the call, and the exception it answered
    with, if any. *)
Definition event : Type := call * option exn.

Definition failure {X : Type} (r : exn + X) : option exn :=
  match r with inl e => Some e | inr _ => None end.

Fixpoint run {W A : Type} (h : handler W) (p : prog A) (w : W) : W * list event * A :=
  match p with
  | Ret a => (w, [], a)
  | Vis c k =>
      let '(w1, r) := h c w in
      let '(w2, t, a) := run h (k r) w1 in
      (w2, (c, failure r) :: t, a)
  end.

(** Running a Python computation from a cache and an environment. *)
Definition exec {W A : Type} (h : handler W) (m : M A) (st : lru) (w : W)
  : W * list event * (lru * (exn + A)) :=
  run h (m st) w.

Definition world_of {W A : Type} (x : W * list event * (lru * (exn + A))) : W := fst (fst x).
Definition trace_of {W A : Type} (x : W * list event * (lru * (exn + A))) : list event :=
  snd (fst x).
Definition cache_of {W A : Type} (x : W * list event * (lru * (exn + A))) : lru := fst (snd x).
Definition outcome_of {W A : Type} (x : W * list event * (lru * (exn + A))) : exn + A :=
  snd (snd x).

Definition calls (t : list event) : list call := map fst t.

(** The statements that reached the database, with their parameters. *)
Fixpoint executed (t : list event) : list (stmt * list value) :=
  match t with
  | [] => []
  | (cursor_execute _ sql params, _) :: rest => (sql, params) :: executed rest
  | _ :: rest => executed rest
  end.

(** The parameters the [LIMIT ?] of the search statements received. *)
Fixpoint searched_limits (l : list (stmt * list value)) : list (option value) :=
  match l with
  | [] => []
  | (search_query fqn w, params) :: rest =>
      bound ph_limit (binding (search_query fqn w) params) :: searched_limits rest
  | _ :: rest => searched_limits rest
  end.

(** The searches a vector store was asked for, whichever its kind: the
    parameters of a search statement, or the arguments of the method of a
    foreign store object. *)
Inductive store_search : Type :=
| hana_search (table_fqn : string) (where_clause : bool) (params : list value)
| duck_search (d : DuckStore) (query_vector : vector) (k : Z) (filter_dict : option dict).

Fixpoint store_searches (t : list event) : list store_search :=
  match t with
  | [] => []
  | (cursor_execute _ (search_query fqn w) params, _) :: rest =>
      hana_search fqn w params :: store_searches rest
  | (duck_similarity_search d qv k f, _) :: rest =>
      duck_search d qv k f :: store_searches rest
  | _ :: rest => store_searches rest
  end.

Fixpoint count_encode (t : list event) : nat :=
  match t with
  | [] => O
  | (embedder_encode _ _, _) :: rest => S (count_encode rest)
  | _ :: rest => count_encode rest
  end.

(** *** Two programs against one environment

    One step of a program is one call; a schedule says whose turn it is
    ([true]: the first program). *)
Definition step {W A : Type} (h : handler W) (p : prog A) (w : W) : W * prog A :=
  match p with
  | Ret a => (w, Ret a)
  | Vis c k => let '(w', r) := h c w in (w', k r)
  end.

Fixpoint interleave {W A : Type} (h : handler W) (schedule : list bool)
    (p1 p2 : prog A) (w : W) : W * prog A * prog A :=
  match schedule with
  | [] => (w, p1, p2)
  | true :: rest => let '(w', p1') := step h p1 w in interleave h rest p1' p2 w'
  | false :: rest => let '(w', p2') := step h p2 w in interleave h rest p1 p2' w'
  end.

Fixpoint failures (t : list event) : list exn :=
  match t with
  | [] => []
  | (_, Some e) :: rest => e :: failures rest
  | (_, None) :: rest => failures rest
  end.

(** ** Small pieces of Python *)

(** Truth value of an [Optional[str]]. *)
Definition truthy_str (s : option string) : bool :=
  match s with
  | None | Some EmptyString => false
  | Some _ => true
  end.

(** [a or b] on optional strings, [b] evaluated only when needed. *)
Definition str_or (a : option string) (b : M (option string)) : M (option string) :=
  if truthy_str a then ret a else b.

(** [row[i]] on a tuple. *)
Definition getitem (row : list value) (i : nat) : M value :=
  match nth_error row i with
  | Some v => ret v
  | None => raise (IndexError "tuple index out of range")
  end.

(** [d[key]] on a dict. *)
Definition dict_getitem (d : dict) (key : string) : M value :=
  match dict_lookup d key with
  | Some v => ret v
  | None => raise (KeyError key)
  end.

(** [v > 0] *)
Definition gt_zero (v : value) : M bool :=
  match v with
  | VInt n => ret (0 <? n)
  | VFloat x => ret (negb (Qle_bool x 0))
  | VBool b => ret b
  | _ => raise (TypeError "'>' not supported")
  end.

Definition lower_ascii (a : ascii) : ascii :=
  let n := nat_of_ascii a in
  if andb (Nat.leb 65 n) (Nat.leb n 90) then ascii_of_nat (n + 32) else a.

(** [s.lower()], on ASCII. *)
Fixpoint lower (s : string) : string :=
  match s with
  | EmptyString => EmptyString
  | String a rest => String (lower_ascii a) (lower rest)
  end.

(** [self.connection.cursor()] *)
Definition cursor_of (conn : option connection) : M cursor :=
  match conn with
  | Some c => do (connection_cursor c)
  | None => raise (AttributeError "'NoneType' object has no attribute 'cursor'")
  end.

(** ** [HanaVectorStore] *)

Definition set_connection (self : HanaVectorStore) (c : option connection) : HanaVectorStore :=
  {| hs_connection := c; hs_host := hs_host self; hs_port := hs_port self;
     hs_user := hs_user self; hs_password := hs_password self;
     hs_schema := hs_schema self; hs_table := hs_table self;
     hs_dimension := hs_dimension self; hs_table_fqn := hs_table_fqn self |}.

(** [os.environ.get(name, default) ] for a string-valued setting. *)
Definition environ_get_default (name default : string) : M (option string) :=
  v <- do (environ_get name) ;;
  ret (Some match v with Some s => s | None => default end).

(** [int(os.environ.get("SAP_HANA_PORT", 443))] *)
Definition environ_port : M Z :=
  v <- do (environ_get "SAP_HANA_PORT") ;;
  match v with
  | Some s => do (int_of s)
  | None => ret 443
  end.

Definition _connect (self : HanaVectorStore) : M HanaVectorStore :=
  self <-
    (if negb (truthy_str (hs_host self) && truthy_str (hs_user self)
              && truthy_str (hs_password self))
     then
       host <- str_or (hs_host self) (do (environ_get "SAP_HANA_HOST")) ;;
       port <- (if hs_port self =? 0 then environ_port else ret (hs_port self)) ;;
       user <- str_or (hs_user self) (do (environ_get "SAP_HANA_USER")) ;;
       password <- str_or (hs_password self) (do (environ_get "SAP_HANA_PASSWORD")) ;;
       schema <- str_or (Some (hs_schema self)) (environ_get_default "SAP_HANA_SCHEMA" "PUBLIC") ;;
       table <- str_or (Some (hs_table self)) (environ_get_default "SAP_HANA_TABLE" "VECTOR_STORE") ;;
       ret {| hs_connection := hs_connection self; hs_host := host; hs_port := port;
              hs_user := user; hs_password := password;
              hs_schema := match schema with Some s => s | None => "" end;
              hs_table := match table with Some s => s | None => "" end;
              hs_dimension := hs_dimension self; hs_table_fqn := hs_table_fqn self |}
     else ret self) ;;
  if negb (truthy_str (hs_host self) && truthy_str (hs_user self)
           && truthy_str (hs_password self))
  then raise (ValueError
    "Missing connection parameters for SAP HANA Cloud. Please provide host, user, and password.")
  else
    try_except
      (c <- do (dbapi_connect (hs_host self) (hs_port self) (hs_user self) (hs_password self)) ;;
       ret (set_connection self (Some c)))
      (fun e => raise e).

Definition _init_table (self : HanaVectorStore) : M unit :=
  try_except
    (cursor <- cursor_of (hs_connection self) ;;
     (* Check if table exists *)
     do (cursor_execute cursor table_check_query
           [VStr (hs_schema self); VStr (hs_table self)]) ;;;
     row <- do (cursor_fetchone cursor) ;;
     count <- match row with
              | Some r => getitem r 0
              | None => raise (TypeError "'NoneType' object is not subscriptable")
              end ;;
     exists_ <- gt_zero count ;;
     (if negb exists_ then
        do (cursor_execute cursor
              (create_table_query (hs_table_fqn self) (hs_dimension self)) []) ;;;
        do (cursor_execute cursor
              (create_index_query (hs_table self) (hs_table_fqn self)) [])
      else ret tt) ;;;
     do (cursor_close cursor))
    (fun e => raise e).

Definition HanaVectorStore__init__
    (conn : option connection) (host : option string) (port : Z)
    (user password : option string) (schema table : string) (dimension : Z)
  : M HanaVectorStore :=
  flag <- do has_hdbcli ;;
  if negb flag then
    raise (ImportError
      "The 'hdbcli' package is required to use the SAP HANA Cloud Vector Store. Install it with 'pip install hdbcli'.")
  else
    let self := {| hs_connection := conn; hs_host := host; hs_port := port;
                   hs_user := user; hs_password := password;
                   hs_schema := schema; hs_table := table; hs_dimension := dimension;
                   hs_table_fqn := schema ++ "." ++ table |} in
    self <- match conn with
            | None => _connect self
            | Some _ => ret self
            end ;;
    _init_table self ;;;
    ret self.

Definition add_documents (self : HanaVectorStore)
    (documents : list dict) (embeddings : list vector) : M unit :=
  if negb (Nat.eqb (List.length documents) (List.length embeddings)) then
    raise (ValueError "Number of documents must match number of embeddings")
  else
    try_except
      (cursor <- cursor_of (hs_connection self) ;;
       for_each (combine documents embeddings) (fun de =>
         let '(doc, emb) := de in
         let doc_id := dict_get doc "id" VNone in
         let text := dict_get doc "text" (VStr "") in
         let metadata := dict_get doc "metadata" (VStr "{}") in
         do (cursor_execute cursor (insert_query (hs_table_fqn self))
               [doc_id; text; of_vector emb; metadata])) ;;;
       match hs_connection self with
       | Some c => do (connection_commit c)
       | None => raise (AttributeError "'NoneType' object has no attribute 'commit'")
       end ;;;
       do (cursor_close cursor))
      (fun e => raise e).

(** The [UPSERT] of one document and its embedding, as [add_documents]
    builds it. *)
Definition upsert_of (table_fqn : string) (de : dict * vector) : stmt * list value :=
  (insert_query table_fqn,
   [dict_get (fst de) "id" VNone; dict_get (fst de) "text" (VStr "");
    of_vector (snd de); dict_get (fst de) "metadata" (VStr "{}")]).

Definition with_dimension (self : HanaVectorStore) (dimension : Z) : HanaVectorStore :=
  {| hs_connection := hs_connection self; hs_host := hs_host self; hs_port := hs_port self;
     hs_user := hs_user self; hs_password := hs_password self;
     hs_schema := hs_schema self; hs_table := hs_table self;
     hs_dimension := dimension; hs_table_fqn := hs_table_fqn self |}.

(** Truth value of [filter_dict]: [None] and the empty dict are false. *)
Definition truthy_dict (d : option dict) : bool :=
  match d with
  | None | Some [] => false
  | Some _ => true
  end.

Definition value_of_filter (d : option dict) : value :=
  match d with
  | None => VNone
  | Some d => VDict d
  end.

Definition similarity_search (self : HanaVectorStore)
    (query_vector : vector) (k : Z) (filter_dict : option dict) : M (list dict) :=
  try_except
    (cursor <- cursor_of (hs_connection self) ;;
     (* Build the query *)
     let params := [VInt k] in   (* First param is k *)
     let '(where_clause, params) :=
       if truthy_dict filter_dict
       then (true, (params ++ [VStr ("%" ++ repr (value_of_filter filter_dict) ++ "%")])%list)
       else (false, params) in
     (* Execute query with query vector as parameter *)
     do (cursor_execute cursor (search_query (hs_table_fqn self) where_clause)
           (of_vector query_vector :: params)) ;;;
     (* Fetch results *)
     rows <- do (cursor_fetchall cursor) ;;
     results <- for_each rows (fun row =>
       id <- getitem row 0 ;;
       text <- getitem row 1 ;;
       metadata <- getitem row 2 ;;
       score <- getitem row 3 ;;
       ret [("id", id); ("text", text); ("metadata", metadata); ("score", score)]) ;;
     do (cursor_close cursor) ;;;
     ret results)
    (fun e => raise e).

(** The parameter list [similarity_search] hands to [cursor.execute]. *)
Definition search_params (query_vector : vector) (k : Z) (filter_dict : option dict)
  : list value :=
  of_vector query_vector :: VInt k ::
  (if truthy_dict filter_dict
   then [VStr ("%" ++ repr (value_of_filter filter_dict) ++ "%")] else []).

Definition close (self : HanaVectorStore) : M unit :=
  match hs_connection self with
  | Some c => do (connection_close c)
  | None => ret tt
  end.

(** ** [SAPHanaRM] *)

Record SAPHanaRM : Type := {
  rm_id : nat;                         (* the identity of the object *)
  rm_k : Z;                            (* self.k, set by Retrieve.__init__ *)
  rm_vector_store : HanaVectorStore
}.

(** *** [functools.lru_cache] *)

Definition lru_key_eqb (a b : lru_key) : bool :=
  Nat.eqb (fst a) (fst b) && String.eqb (snd a) (snd b).

Fixpoint lru_find (key : lru_key) (cache : lru) : option vector :=
  match cache with
  | [] => None
  | (k', v) :: rest => if lru_key_eqb key k' then Some v else lru_find key rest
  end.

Fixpoint lru_remove (key : lru_key) (cache : lru) : lru :=
  match cache with
  | [] => []
  | (k', v) :: rest =>
      if lru_key_eqb key k' then lru_remove key rest else (k', v) :: lru_remove key rest
  end.

(** A hit moves the entry to the front. *)
Definition lru_touch (key : lru_key) (v : vector) (cache : lru) : lru :=
  (key, v) :: lru_remove key cache.

(** Storing a result: nothing if the key got in meanwhile, else the least
    recently used entry makes room when the cache is full. *)
Definition lru_store (maxsize : nat) (key : lru_key) (v : vector) (cache : lru) : lru :=
  match lru_find key cache with
  | Some _ => cache
  | None =>
      if Nat.leb maxsize (List.length cache)
      then (key, v) :: removelast cache
      else (key, v) :: cache
  end.

(** The wrapper [lru_cache(maxsize)] puts around [user_function]. *)
Definition lru_cache (maxsize : nat) (user_function : M vector) (key : lru_key) : M vector :=
  cache <- get_cache ;;
  match lru_find key cache with
  | Some result =>
      put_cache (lru_touch key result cache) ;;;
      ret result
  | None =>
      result <- user_function ;;
      cache <- get_cache ;;
      put_cache (lru_store maxsize key result cache) ;;;
      ret result
  end.

(** The body of [_get_embedding], under the decorator. *)
Definition _get_embedding_body (self : SAPHanaRM) (text : string) : M vector :=
  (* Get the embedder from DSPy settings *)
  embedder <- do settings_embedder ;;
  match embedder with
  | None => raise (ValueError "No embedder configured in DSPy settings")
  | Some e =>
      out <- do (embedder_encode e [text]) ;;
      match out with
      | embedding :: _ => ret embedding
      | [] => raise (IndexError "index 0 is out of bounds")
      end
  end.

Definition maxsize : nat := 1024.

Definition _get_embedding (self : SAPHanaRM) (text : string) : M vector :=
  lru_cache maxsize (_get_embedding_body self text) (rm_id self, text).

(** [k or self.k] *)
Definition k_or (k : option Z) (self_k : Z) : Z :=
  match k with
  | None => self_k
  | Some n => if n =? 0 then self_k else n
  end.

Definition forward (self : SAPHanaRM) (query : string) (k : option Z) : M (list dict) :=
  let k := k_or k (rm_k self) in
  query_vector <- _get_embedding self query ;;
  results <- similarity_search (rm_vector_store self) query_vector k None ;;
  (* Format results for DSPy *)
  for_each results (fun result =>
    id <- dict_getitem result "id" ;;
    long_text <- dict_getitem result "text" ;;
    score <- dict_getitem result "score" ;;
    metadata <- dict_getitem result "metadata" ;;
    ret [("id", id); ("long_text", long_text); ("score", score); ("metadata", metadata)]).

Definition SAPHanaRM__del__ (self : SAPHanaRM) : M unit :=
  try_except (close (rm_vector_store self)) (fun _ => ret tt).

(** ** The vector-store API *)

Record VectorSearchRequest : Type := {
  rq_query : string;
  rq_k : Z;
  rq_filter_dict : option dict
}.

Record VectorSearchResponse : Type := {
  rs_results : list dict;
  rs_latency : float
}.

Definition get_vector_store : M (option store_object) :=
  try_except
    ((* First check if we have a vector store in settings *)
     has <- do settings_has_vector_store ;;
     if has then do settings_vector_store
     else
       (* If not, check if we have SAPHanaRM configured *)
       t <- do (environ_get "DSPY_VECTOR_STORE") ;;
       let vector_store_type := lower match t with Some s => s | None => "" end in
       if String.eqb vector_store_type "sap_hana" then
         try_except
           (do (import_module "dspy.retrieve.sap_hana_rm") ;;;
            (* Get connection parameters from environment *)
            host <- do (environ_get "SAP_HANA_HOST") ;;
            port <- environ_port ;;
            user <- do (environ_get "SAP_HANA_USER") ;;
            password <- do (environ_get "SAP_HANA_PASSWORD") ;;
            schema <- environ_get_default "SAP_HANA_SCHEMA" "PUBLIC" ;;
            table <- environ_get_default "SAP_HANA_TABLE" "VECTOR_STORE" ;;
            (* Create connection to SAP HANA *)
            do (import_module "hdbcli") ;;;
            conn <- do (dbapi_connect host port user password) ;;
            (* Create vector store *)
            vector_store <- HanaVectorStore__init__ (Some conn) None 443 None None
                              match schema with Some s => s | None => "" end
                              match table with Some s => s | None => "" end
                              1536 ;;
            (* Cache in settings for future use *)
            do (settings_set_vector_store (Hana vector_store)) ;;;
            ret (Some (Hana vector_store)))
           (fun e => if is_ImportError e then ret None else ret None)
       else ret None)
    (fun e => ret None).

(** [hasattr(vector_store, 'connection')] and [vector_store.connection] *)
Definition store_connection (o : store_object) : option (option connection) :=
  match o with
  | Hana s => Some (hs_connection s)
  | Duck d => duck_connection d
  end.

Definition opt_str (s : option string) : value :=
  match s with Some s => VStr s | None => VNone end.

(** [getattr(vector_store, name, 'unknown')] for the three names used. *)
Definition getattr_host (o : store_object) : value :=
  match o with
  | Hana s => opt_str (hs_host s)
  | Duck d => match duck_host d with Some v => v | None => VStr "unknown" end
  end.

Definition getattr_schema (o : store_object) : value :=
  match o with
  | Hana s => VStr (hs_schema s)
  | Duck d => match duck_schema d with Some v => v | None => VStr "unknown" end
  end.

Definition getattr_table (o : store_object) : value :=
  match o with
  | Hana s => VStr (hs_table s)
  | Duck d => match duck_table d with Some v => v | None => VStr "unknown" end
  end.

Definition vector_store_status : M dict :=
  try_except
    (vector_store <- get_vector_store ;;
     match vector_store with
     | None =>
         ret [("status", VStr "not_configured");
              ("message", VStr "Vector store is not configured")]
     | Some o =>
         (* Check connection by executing a simple query *)
         match store_connection o with
         | Some conn =>
             connection_ok <-
               try_except
                 (cursor <- cursor_of conn ;;
                  do (cursor_execute cursor select_dummy_query []) ;;;
                  do (cursor_close cursor) ;;;
                  ret true)
                 (fun e => ret false) ;;
             ret [("status", VStr (if connection_ok then "connected" else "error"));
                  ("type", VStr "sap_hana");
                  ("connection_ok", VBool connection_ok);
                  ("host", getattr_host o);
                  ("schema", getattr_schema o);
                  ("table", getattr_table o);
                  ("message", VStr (if connection_ok then "Connected to SAP HANA Cloud"
                                    else "Error connecting to SAP HANA Cloud"))]
         | None =>
             ret [("status", VStr "unknown");
                  ("message", VStr "Vector store connection status could not be determined")]
         end
     end)
    (fun e => ret [("status", VStr "error"); ("message", VStr (str_exn e))]).

(** [vector_store.similarity_search(query_vector=..., k=..., filter_dict=...)] *)
Definition store_similarity_search (o : store_object)
    (query_vector : vector) (k : Z) (filter_dict : option dict) : M (list dict) :=
  match o with
  | Hana s => similarity_search s query_vector k filter_dict
  | Duck d => do (duck_similarity_search d query_vector k filter_dict)
  end.

(** One entry of the response, from one search result. *)
Definition format_result (result : dict) : dict :=
  [("id", dict_get result "id" (VStr ""));
   ("text", dict_get result "text" (VStr ""));
   ("metadata", dict_get result "metadata" (VDict []));
   ("score", dict_get result "score" (VFloat 0%Q))].

Definition vector_store_search (request : VectorSearchRequest) : M VectorSearchResponse :=
  try_except
    (vector_store <- get_vector_store ;;
     match vector_store with
     | None =>
         raise (HTTPException HTTP_503_SERVICE_UNAVAILABLE "Vector store is not configured")
     | Some vector_store =>
         (* Check if we have a working embedder *)
         embedder <-
           try_except
             (embedder <- do settings_embedder ;;
              match embedder with
              | None => raise (ValueError "No embedder configured in DSPy settings")
              | Some e => ret e
              end)
             (fun e => raise (HTTPException HTTP_500_INTERNAL_SERVER_ERROR
                                ("Embedder not configured or not working: " ++ str_exn e))) ;;
         (* Get embedding for query *)
         query_embedding <-
           try_except
             (out <- do (embedder_encode embedder [rq_query request]) ;;
              match out with
              | embedding :: _ => ret embedding
              | [] => raise (IndexError "index 0 is out of bounds")
              end)
             (fun e => raise (HTTPException HTTP_500_INTERNAL_SERVER_ERROR
                                ("Error generating embedding: " ++ str_exn e))) ;;
         (* Perform search *)
         start_time <- do time_time ;;
         search_results <-
           try_except
             (store_similarity_search vector_store query_embedding
                (rq_k request) (rq_filter_dict request))
             (fun e => raise (HTTPException HTTP_500_INTERNAL_SERVER_ERROR
                                ("Error performing similarity search: " ++ str_exn e))) ;;
         now <- do time_time ;;
         let latency := Qminus now start_time in
         (* Format results *)
         let results := map format_result search_results in
         ret {| rs_results := results; rs_latency := latency |}
     end)
    (fun e =>
       if is_HTTPException e then raise e
       else raise (HTTPException HTTP_500_INTERNAL_SERVER_ERROR (str_exn e))).

(** ** A model of the environment

    One database with tables of vector records, the DSPy settings, an
    embedder, the process environment and a clock.  The source fixes none
    of this: the model is one environment the code can run in, used to
    evaluate the code on concrete inputs.  The general statements below
    hold for every environment. *)

Module Model.

Record record : Type := {
  r_id : string;
  r_text : value;
  r_vector : vector;
  r_metadata : value
}.

Record table : Type := {
  tb_dimension : Z;
  tb_rows : list record        (* in the store's native order *)
}.

Record world : Type := {
  w_tables : list (string * table);               (* by fully qualified name *)
  w_indexes : list string;
  w_cursors : list (cursor * list (list value));  (* open cursors and their result sets *)
  w_next_cursor : nat;
  w_closes : list connection;                     (* every connection.close(), latest first *)
  w_hdbcli : bool;
  w_settings_vector_store : option (option store_object);  (* None: no such attribute *)
  w_settings_embedder : option embedder;
  w_encode : string -> vector;
  w_environ : list (string * string);
  w_clock : float;
  w_cosine_similarity : vector -> vector -> float;
  w_duck_results : list dict
}.

Definition with_db (w : world) (tables : list (string * table)) (indexes : list string)
    (cursors : list (cursor * list (list value))) (next : nat) : world :=
  {| w_tables := tables; w_indexes := indexes; w_cursors := cursors;
     w_next_cursor := next; w_closes := w_closes w; w_hdbcli := w_hdbcli w;
     w_settings_vector_store := w_settings_vector_store w;
     w_settings_embedder := w_settings_embedder w; w_encode := w_encode w;
     w_environ := w_environ w; w_clock := w_clock w;
     w_cosine_similarity := w_cosine_similarity w;
     w_duck_results := w_duck_results w |}.

Definition with_tables (w : world) (tables : list (string * table)) : world :=
  with_db w tables (w_indexes w) (w_cursors w) (w_next_cursor w).

Definition with_indexes (w : world) (indexes : list string) : world :=
  with_db w (w_tables w) indexes (w_cursors w) (w_next_cursor w).

Definition with_cursors (w : world) (cursors : list (cursor * list (list value))) : world :=
  with_db w (w_tables w) (w_indexes w) cursors (w_next_cursor w).

Fixpoint assoc {B : Type} (key : string) (l : list (string * B)) : option B :=
  match l with
  | [] => None
  | (k, v) :: rest => if String.eqb k key then Some v else assoc key rest
  end.

Fixpoint assoc_set {B : Type} (key : string) (v : B) (l : list (string * B)) : list (string * B) :=
  match l with
  | [] => [(key, v)]
  | (k, v') :: rest =>
      if String.eqb k key then (k, v) :: rest else (k, v') :: assoc_set key v rest
  end.

Fixpoint cursor_rows (cur : cursor) (l : list (cursor * list (list value)))
  : option (list (list value)) :=
  match l with
  | [] => None
  | (c, rows) :: rest => if Nat.eqb c cur then Some rows else cursor_rows cur rest
  end.

Fixpoint cursor_set (cur : cursor) (rows : list (list value))
    (l : list (cursor * list (list value))) : list (cursor * list (list value)) :=
  match l with
  | [] => []
  | (c, old) :: rest =>
      if Nat.eqb c cur then (c, rows) :: rest else (c, old) :: cursor_set cur rows rest
  end.

Definition cursor_drop (cur : cursor) (l : list (cursor * list (list value)))
  : list (cursor * list (list value)) :=
  filter (fun cr => negb (Nat.eqb (fst cr) cur)) l.

(** *** Text *)

Definition is_digit (a : ascii) : bool :=
  let n := nat_of_ascii a in andb (Nat.leb 48 n) (Nat.leb n 57).

Fixpoint parse_digits (s : string) (acc : Z) : option Z :=
  match s with
  | EmptyString => Some acc
  | String a rest =>
      if is_digit a
      then parse_digits rest (10 * acc + Z.of_nat (nat_of_ascii a - 48))
      else None
  end.

(** Decimal integers with an optional minus sign. *)
Definition parse_int (s : string) : option Z :=
  match s with
  | EmptyString => None
  | String "-" (String a rest) => option_map Z.opp (parse_digits (String a rest) 0)
  | _ => parse_digits s 0
  end.

(** SQL [LIKE]: [%] stands for any text, [_] for one character. *)
Fixpoint like (pattern s : string) : bool :=
  match pattern with
  | EmptyString => match s with EmptyString => true | _ => false end
  | String "%" p =>
      (fix skip (s : string) : bool :=
         orb (like p s)
             match s with
             | EmptyString => false
             | String _ s' => skip s'
             end) s
  | String "_" p =>
      match s with
      | EmptyString => false
      | String _ s' => like p s'
      end
  | String a p =>
      match s with
      | EmptyString => false
      | String b s' => andb (Ascii.eqb a b) (like p s')
      end
  end.

(** *** Statements *)

Definition sql_error (code : Z) (text : string) : exn := DriverError code text.

(** Conversions the database applies to a bound parameter. *)
Definition as_integer (v : value) : exn + Z :=
  match v with
  | VInt n => inr n
  | VBool b => inr (if b then 1 else 0)
  | VStr s => match parse_int s with
              | Some n => inr n
              | None => inl (sql_error 339 "invalid number")
              end
  | _ => inl (sql_error 266 "inconsistent datatype")
  end.

Definition as_text (v : value) : exn + option string :=
  match v with
  | VStr s => inr (Some s)
  | VInt n => inr (Some (repr_int n))
  | VNone => inr None
  | _ => inl (sql_error 266 "inconsistent datatype")
  end.

Fixpoint as_floats (l : list value) : exn + vector :=
  match l with
  | [] => inr []
  | VFloat x :: rest =>
      match as_floats rest with inr xs => inr (x :: xs) | inl e => inl e end
  | VInt n :: rest =>
      match as_floats rest with inr xs => inr (inject_Z n :: xs) | inl e => inl e end
  | _ => inl (sql_error 266 "inconsistent datatype")
  end.

Definition as_array (v : value) : exn + vector :=
  match v with
  | VList l => as_floats l
  | _ => inl (sql_error 266 "inconsistent datatype")
  end.

Definition metadata_like (pattern : string) (r : record) : bool :=
  match r_metadata r with
  | VStr m => like pattern m
  | _ => false
  end.

(** [ORDER BY score DESC]: stable insertion. *)
Fixpoint insert_desc (x : float * record) (l : list (float * record)) : list (float * record) :=
  match l with
  | [] => [x]
  | y :: rest =>
      if Qle_bool (fst y) (fst x) then x :: y :: rest else y :: insert_desc x rest
  end.

Fixpoint order_by_score_desc (l : list (float * record)) : list (float * record) :=
  match l with
  | [] => []
  | x :: rest => insert_desc x (order_by_score_desc rest)
  end.

Definition result_row (sr : float * record) : list value :=
  let '(score, r) := sr in
  [VStr (r_id r); r_text r; r_metadata r; VFloat score].

Definition select_similar (cosine : vector -> vector -> float) (rows : list record)
    (query_vector : vector) (pattern : option string) (limit : nat) : list (list value) :=
  let kept := match pattern with
              | Some p => filter (metadata_like p) rows
              | None => rows
              end in
  let scored := map (fun r => (cosine (r_vector r) query_vector, r)) kept in
  map result_row (firstn limit (order_by_score_desc scored)).

Fixpoint upsert_row (r : record) (rows : list record) : list record :=
  match rows with
  | [] => [r]
  | r' :: rest =>
      if String.eqb (r_id r') (r_id r) then r :: rest else r' :: upsert_row r rest
  end.

Definition param (ph : placeholder) (b : list (placeholder * value)) : value :=
  match bound ph b with
  | Some v => v
  | None => VNone
  end.

(** The effect of one statement: the new tables and indexes and the result
    set, or the error the database reports. *)
Definition execute (w : world) (sql : stmt) (params : list value)
  : exn + (list (string * table) * list string * list (list value)) :=
  if negb (Nat.eqb (List.length params) (List.length (placeholders sql))) then
    inl (sql_error (-10210) "wrong number of parameters")
  else
    let b := binding sql params in
    match sql with
    | table_check_query =>
        match as_text (param ph_schema_name b), as_text (param ph_table_name b) with
        | inr (Some schema), inr (Some table) =>
            let n := match assoc (schema ++ "." ++ table) (w_tables w) with
                     | Some _ => 1 | None => 0 end in
            inr (w_tables w, w_indexes w, [[VInt n]])
        | inr _, inr _ => inr (w_tables w, w_indexes w, [[VInt 0]])
        | inl e, _ | _, inl e => inl e
        end
    | create_table_query fqn dimension =>
        match assoc fqn (w_tables w) with
        | Some _ => inl (sql_error 288 "cannot use duplicate table name")
        | None =>
            inr ((w_tables w ++ [(fqn, {| tb_dimension := dimension; tb_rows := [] |})])%list,
                 w_indexes w, [])
        end
    | create_index_query table fqn =>
        let name := table ++ "_vector_idx" in
        match assoc fqn (w_tables w) with
        | None => inl (sql_error 259 "invalid table name")
        | Some _ =>
            if existsb (String.eqb name) (w_indexes w)
            then inl (sql_error 289 "cannot use duplicate index name")
            else inr (w_tables w, (w_indexes w ++ [name])%list, [])
        end
    | insert_query fqn =>
        match assoc fqn (w_tables w) with
        | None => inl (sql_error 259 "invalid table name")
        | Some t =>
            match as_text (param ph_id b), as_text (param ph_text b),
                  as_array (param ph_vector b), as_text (param ph_metadata b) with
            | inr (Some id), inr text, inr v, inr metadata =>
                if negb (Z.of_nat (List.length v) =? tb_dimension t) then
                  inl (sql_error 2048 "array cardinality does not match the column")
                else
                  let r := {| r_id := id; r_text := opt_str text; r_vector := v;
                              r_metadata := opt_str metadata |} in
                  inr (assoc_set fqn {| tb_dimension := tb_dimension t;
                                        tb_rows := upsert_row r (tb_rows t) |} (w_tables w),
                       w_indexes w, [])
            | inr None, _, _, _ => inl (sql_error 287 "cannot insert NULL")
            | inl e, _, _, _ | _, inl e, _, _ | _, _, inl e, _ | _, _, _, inl e => inl e
            end
        end
    | search_query fqn where_clause =>
        match assoc fqn (w_tables w) with
        | None => inl (sql_error 259 "invalid table name")
        | Some t =>
            match as_array (param ph_cosine_similarity b),
                  (if where_clause then as_text (param ph_like b) else inr None),
                  as_integer (param ph_limit b) with
            | inr qv, inr pattern, inr limit =>
                if limit <? 0 then inl (sql_error 257 "sql syntax error: negative LIMIT")
                else
                  let pattern := if where_clause
                                 then Some match pattern with Some p => p | None => "" end
                                 else None in
                  inr (w_tables w, w_indexes w,
                       select_similar (w_cosine_similarity w) (tb_rows t) qv pattern
                         (Z.to_nat limit))
            | inl e, _, _ | _, inl e, _ | _, _, inl e => inl e
            end
        end
    | select_dummy_query => inr (w_tables w, w_indexes w, [[VInt 1]])
    end.

(** *** The environment's answers *)

Definition closed_error : exn := sql_error (-10807) "Connection closed".

Definition hana : handler world :=
  fun c =>
    match c as c0 return world -> world * (exn + answer c0) with
    | has_hdbcli => fun w => (w, inr (w_hdbcli w))
    | settings_has_vector_store => fun w =>
        (w, inr match w_settings_vector_store w with Some _ => true | None => false end)
    | settings_vector_store => fun w =>
        (w, match w_settings_vector_store w with
            | Some o => inr o
            | None => inl (AttributeError "'Settings' object has no attribute 'vector_store'")
            end)
    | settings_set_vector_store o => fun w =>
        ({| w_tables := w_tables w; w_indexes := w_indexes w; w_cursors := w_cursors w;
            w_next_cursor := w_next_cursor w; w_closes := w_closes w; w_hdbcli := w_hdbcli w;
            w_settings_vector_store := Some (Some o);
            w_settings_embedder := w_settings_embedder w; w_encode := w_encode w;
            w_environ := w_environ w; w_clock := w_clock w;
            w_cosine_similarity := w_cosine_similarity w;
            w_duck_results := w_duck_results w |}, inr tt)
    | settings_embedder => fun w => (w, inr (w_settings_embedder w))
    | environ_get name => fun w => (w, inr (assoc name (w_environ w)))
    | int_of s => fun w =>
        (w, match parse_int s with
            | Some n => inr n
            | None => inl (ValueError "invalid literal for int() with base 10")
            end)
    | import_module name => fun w =>
        (w, if andb (String.eqb name "hdbcli") (negb (w_hdbcli w))
            then inl (ImportError "No module named 'hdbcli'") else inr tt)
    | embedder_encode e texts => fun w => (w, inr (map (w_encode w) texts))
    | dbapi_connect address port user password => fun w => (w, inr O)
    | connection_cursor conn => fun w =>
        if existsb (Nat.eqb conn) (w_closes w) then (w, inl closed_error)
        else (with_db w (w_tables w) (w_indexes w)
                ((w_next_cursor w, []) :: w_cursors w) (S (w_next_cursor w)),
              inr (w_next_cursor w))
    | cursor_execute cur sql params => fun w =>
        match cursor_rows cur (w_cursors w) with
        | None => (w, inl (sql_error (-10101) "Cursor closed"))
        | Some _ =>
            match execute w sql params with
            | inl e => (w, inl e)
            | inr (tables, indexes, rows) =>
                (with_db w tables indexes (cursor_set cur rows (w_cursors w))
                   (w_next_cursor w), inr tt)
            end
        end
    | cursor_fetchone cur => fun w =>
        match cursor_rows cur (w_cursors w) with
        | None => (w, inl (sql_error (-10101) "Cursor closed"))
        | Some [] => (w, inr None)
        | Some (row :: rest) => (with_cursors w (cursor_set cur rest (w_cursors w)), inr (Some row))
        end
    | cursor_fetchall cur => fun w =>
        match cursor_rows cur (w_cursors w) with
        | None => (w, inl (sql_error (-10101) "Cursor closed"))
        | Some rows => (with_cursors w (cursor_set cur [] (w_cursors w)), inr rows)
        end
    | cursor_close cur => fun w => (with_cursors w (cursor_drop cur (w_cursors w)), inr tt)
    | connection_commit conn => fun w =>
        (w, if existsb (Nat.eqb conn) (w_closes w) then inl closed_error else inr tt)
    | connection_close conn => fun w =>
        ({| w_tables := w_tables w; w_indexes := w_indexes w; w_cursors := w_cursors w;
            w_next_cursor := w_next_cursor w; w_closes := conn :: w_closes w;
            w_hdbcli := w_hdbcli w;
            w_settings_vector_store := w_settings_vector_store w;
            w_settings_embedder := w_settings_embedder w; w_encode := w_encode w;
            w_environ := w_environ w; w_clock := w_clock w;
            w_cosine_similarity := w_cosine_similarity w;
            w_duck_results := w_duck_results w |}, inr tt)
    | time_time => fun w =>
        ({| w_tables := w_tables w; w_indexes := w_indexes w; w_cursors := w_cursors w;
            w_next_cursor := w_next_cursor w; w_closes := w_closes w; w_hdbcli := w_hdbcli w;
            w_settings_vector_store := w_settings_vector_store w;
            w_settings_embedder := w_settings_embedder w; w_encode := w_encode w;
            w_environ := w_environ w; w_clock := Qplus (w_clock w) 1;
            w_cosine_similarity := w_cosine_similarity w;
            w_duck_results := w_duck_results w |}, inr (w_clock w))
    | duck_similarity_search d qv k f => fun w => (w, inr (w_duck_results w))
    end.

End Model.

(** ** Concrete inputs *)

Module Toy.
Import Model.

(** Two-dimensional toy vectors; for unit vectors the dot product is the
    cosine similarity. *)
Definition dot (a b : vector) : float :=
  fold_right Qplus 0%Q (map (fun ab => Qmult (fst ab) (snd ab)) (combine a b)).

Definition encode (text : string) : vector :=
  if String.eqb text "hello" then [1%Q; 0%Q] else [0%Q; 1%Q].

Definition store : HanaVectorStore :=
  {| hs_connection := Some O; hs_host := Some "hana.example"; hs_port := 443;
     hs_user := Some "user"; hs_password := Some "secret";
     hs_schema := "PUBLIC"; hs_table := "VECTOR_STORE"; hs_dimension := 2;
     hs_table_fqn := "PUBLIC.VECTOR_STORE" |}.

Definition rm : SAPHanaRM := {| rm_id := 7; rm_k := 5; rm_vector_store := store |}.

(** A database without tables; nothing configured in the DSPy settings but
    the embedder. *)
Definition fresh : world :=
  {| w_tables := []; w_indexes := []; w_cursors := []; w_next_cursor := O;
     w_closes := []; w_hdbcli := true;
     w_settings_vector_store := None; w_settings_embedder := Some O;
     w_encode := encode; w_environ := []; w_clock := 0%Q;
     w_cosine_similarity := dot; w_duck_results := [] |}.

Definition rows : list record :=
  [ {| r_id := "a"; r_text := VStr "first"; r_vector := [1%Q; 0%Q];
       r_metadata := VStr "{'source': 'a'}" |};
    {| r_id := "b"; r_text := VStr "second"; r_vector := [0%Q; 1%Q];
       r_metadata := VStr "{'source': 'b'}" |} ].

(** The same without an embedder. *)
Definition no_embedder : world :=
  {| w_tables := []; w_indexes := []; w_cursors := []; w_next_cursor := O;
     w_closes := []; w_hdbcli := true;
     w_settings_vector_store := None; w_settings_embedder := None;
     w_encode := encode; w_environ := []; w_clock := 0%Q;
     w_cosine_similarity := dot; w_duck_results := [] |}.

(** The table of [store], provisioned and holding two records. *)
Definition provisioned : world :=
  with_db fresh [("PUBLIC.VECTOR_STORE", {| tb_dimension := 2; tb_rows := rows |})]
    ["VECTOR_STORE_vector_idx"] [] O.

(** The same, with [store] wired into the DSPy settings. *)
Definition configured : world :=
  {| w_tables := w_tables provisioned; w_indexes := w_indexes provisioned;
     w_cursors := []; w_next_cursor := O; w_closes := []; w_hdbcli := true;
     w_settings_vector_store := Some (Some (Hana store));
     w_settings_embedder := Some O;
     w_encode := encode; w_environ := []; w_clock := 0%Q;
     w_cosine_similarity := dot; w_duck_results := [] |}.

(** The same after the connection of [store] was closed. *)
Definition disconnected : world :=
  {| w_tables := w_tables provisioned; w_indexes := w_indexes provisioned;
     w_cursors := []; w_next_cursor := O; w_closes := [O]; w_hdbcli := true;
     w_settings_vector_store := Some (Some (Hana store));
     w_settings_embedder := Some O;
     w_encode := encode; w_environ := []; w_clock := 0%Q;
     w_cosine_similarity := dot; w_duck_results := [] |}.

(** A foreign store object in the settings whose one search result has
    only an [id]. *)
Definition duck : DuckStore :=
  {| duck_id := 1; duck_connection := None; duck_host := None;
     duck_schema := None; duck_table := None |}.

Definition with_duck : world :=
  {| w_tables := []; w_indexes := []; w_cursors := []; w_next_cursor := O;
     w_closes := []; w_hdbcli := true;
     w_settings_vector_store := Some (Some (Duck duck));
     w_settings_embedder := Some O;
     w_encode := encode; w_environ := []; w_clock := 0%Q;
     w_cosine_similarity := dot; w_duck_results := [[("id", VStr "x")]] |}.

(** Two provisioners of the same fresh table, the second checking before
    the first has created. *)
Definition race : list bool :=
  [true; true; true; false; false; false; true; true; true; false].


End Toy.

(** ** Predicates used in the statements *)

(** Computations that make no call and leave the cache alone. *)
Definition pure {A : Type} (m : M A) : Prop := forall st, exists r, m st = Ret (st, r).

(** Computations that never ask a store to search. *)
Definition quiet {A : Type} (m : M A) : Prop :=
  forall (W : Type) (h : handler W) st w, store_searches (trace_of (exec h m st w)) = [].

(** Environments that do not raise FastAPI's [HTTPException] themselves. *)
Definition raises_no_http {W : Type} (h : handler W) : Prop :=
  forall c w e, snd (h c w) = inl e -> is_HTTPException e = false.

Definition driver_error (e : exn) : Prop := exists code text, e = DriverError code text.


(** The search a store object is asked for by [store_similarity_search]. *)
Definition search_of (o : store_object) (query_vector : vector) (k : Z)
    (filter_dict : option dict) : store_search :=
  match o with
  | Hana s => hana_search (hs_table_fqn s) (truthy_dict filter_dict)
                (search_params query_vector k filter_dict)
  | Duck d => duck_search d query_vector k filter_dict
  end.

(** ** The rest of the two modules *)

(** [SAPHanaRM.__init__]; [self_id] is the identity of the new object.
    [Retrieve.__init__] keeps [k] as [self.k]; the attribute
    [_embedding_cache] it also sets is never read. *)
Definition SAPHanaRM__init__ (self_id : nat) (k : Z)
    (vector_store : option HanaVectorStore)
    (host : option string) (port : Z) (user password : option string)
    (schema table : string) (dimension : Z) : M SAPHanaRM :=
  (* Use provided vector store or create a new one *)
  vector_store <-
    match vector_store with
    | Some vs => ret vs
    | None => HanaVectorStore__init__ None host port user password schema table dimension
    end ;;
  ret {| rm_id := self_id; rm_k := k; rm_vector_store := vector_store |}.

(** The dict [similarity_search] makes of one row of the result set. *)
Definition row_dict (row : list value) : exn + dict :=
  match nth_error row 0, nth_error row 1, nth_error row 2, nth_error row 3 with
  | Some id, Some text, Some metadata, Some score =>
      inr [("id", id); ("text", text); ("metadata", metadata); ("score", score)]
  | _, _, _, _ => inl (IndexError "tuple index out of range")
  end.

(** The [dspy.Example] [forward] makes of one search result. *)
Definition example_of (result : dict) : dict :=
  [("id", dict_get result "id" VNone);
   ("long_text", dict_get result "text" VNone);
   ("score", dict_get result "score" VNone);
   ("metadata", dict_get result "metadata" VNone)].

(** The values of a loop up to its first exception. *)
Fixpoint collect {A B : Type} (f : A -> exn + B) (l : list A) : exn + list B :=
  match l with
  | [] => inr []
  | x :: rest =>
      match f x with
      | inl e => inl e
      | inr y => match collect f rest with
                 | inl e => inl e
                 | inr ys => inr (y :: ys)
                 end
      end
  end.

(** ** Predicates on calls and results *)

(** [safe P R m]: in every environment, [m] makes only calls that satisfy
    [P], and a value it returns satisfies [R]. *)
Definition safe {A : Type} (P : call -> Prop) (R : A -> Prop) (m : M A) : Prop :=
  forall (W : Type) (h : handler W) st w,
    Forall P (calls (trace_of (exec h m st w))) /\
    match outcome_of (exec h m st w) with
    | inr a => R a
    | inl _ => True
    end.

(** A connection is attempted only with a host, a user and a password. *)
Definition connects_with_credentials (c : call) : Prop :=
  match c with
  | dbapi_connect address _ user password =>
      truthy_str address && truthy_str user && truthy_str password = true
  | _ => True
  end.

(** The calls of schema provisioning: the test of the hdbcli flag and the
    cursor operations. *)
Definition provisioning_call (c : call) : Prop :=
  match c with
  | has_hdbcli | connection_cursor _ | cursor_execute _ _ _
  | cursor_fetchone _ | cursor_close _ => True
  | _ => False
  end.

(** Whatever is written to [dspy.settings.vector_store] is a
    [HanaVectorStore] on a connection, built with the defaults of its
    constructor: no host, user or password, port 443, dimension 1536. *)
Definition caches_default_store (c : call) : Prop :=
  match c with
  | settings_set_vector_store o =>
      exists s conn,
        o = Hana s /\ hs_connection s = Some conn /\
        hs_host s = None /\ hs_port s = 443 /\ hs_user s = None /\
        hs_password s = None /\ hs_dimension s = 1536
  | _ => True
  end.

(** The event of an [UPSERT] on cursor [cur] that the store accepted. *)
Definition accepted (cur : cursor) (u : stmt * list value) : event :=
  (cursor_execute cur (fst u) (snd u), None).

(** ** [FrontendConfig] ([dspy/frontend/config.py]) *)

Record FrontendConfig : Type := {
  fc_host : string;
  fc_port : Z;
  fc_debug : bool;
  fc_enable_cors : bool;
  fc_cors_origins : list string;
  fc_api_prefix : string;
  fc_api_version : string;
  fc_enable_auth : bool;
  fc_auth_token_expiry : Z;
  fc_jwt_secret : option string;
  fc_static_folder : string;
  fc_template_folder : string;
  fc_enable_telemetry : bool;
  fc_enable_monitoring : bool;
  fc_experiment_tracking_dir : string;
  fc_model_cache_dir : string;
  fc_custom_settings : dict
}.

(** [self.__dict__]: the fields in the order of their declaration. *)
Definition config__dict__ (self : FrontendConfig) : dict :=
  [("host", VStr (fc_host self));
   ("port", VInt (fc_port self));
   ("debug", VBool (fc_debug self));
   ("enable_cors", VBool (fc_enable_cors self));
   ("cors_origins", VList (map VStr (fc_cors_origins self)));
   ("api_prefix", VStr (fc_api_prefix self));
   ("api_version", VStr (fc_api_version self));
   ("enable_auth", VBool (fc_enable_auth self));
   ("auth_token_expiry", VInt (fc_auth_token_expiry self));
   ("jwt_secret", opt_str (fc_jwt_secret self));
   ("static_folder", VStr (fc_static_folder self));
   ("template_folder", VStr (fc_template_folder self));
   ("enable_telemetry", VBool (fc_enable_telemetry self));
   ("enable_monitoring", VBool (fc_enable_monitoring self));
   ("experiment_tracking_dir", VStr (fc_experiment_tracking_dir self));
   ("model_cache_dir", VStr (fc_model_cache_dir self));
   ("custom_settings", VDict (fc_custom_settings self))].

(** [d[key] = v]: in place for a key the dict has, at the end for a new
    one. *)
Fixpoint dict_set (d : dict) (key : string) (v : value) : dict :=
  match d with
  | [] => [(key, v)]
  | (k, v') :: rest =>
      if String.eqb k key then (k, v) :: rest else (k, v') :: dict_set rest key v
  end.

Definition to_dict (self : FrontendConfig) : dict :=
  let config_dict :=
    filter (fun kv => negb (String.eqb (fst kv) "jwt_secret")) (config__dict__ self) in
  (* Add a placeholder for sensitive fields *)
  if truthy_str (fc_jwt_secret self)
  then dict_set config_dict "jwt_secret" (VStr "***HIDDEN***")
  else config_dict.

(** * Properties *)

Unset Implicit Arguments.

(** ** Running composed programs *)

Section Running.
Context {W : Type} (h : handler W).

Lemma run_pbind {A B : Type} (p : prog A) (f : A -> prog B) (w : W) :
  run h (pbind p f) w =
  let '(w1, t1, a) := run h p w in
  let '(w2, t2, b) := run h (f a) w1 in
  (w2, (t1 ++ t2)%list, b).
Proof.
  revert w; induction p as [a | c k IH]; intro w; simpl.
  - destruct (run h (f a) w) as [[w2 t2] b]; reflexivity.
  - destruct (h c w) as [w1 r].
    rewrite IH.
    destruct (run h (k r) w1) as [[w2 t2] a].
    destruct (run h (f a) w2) as [[w3 t3] b]; reflexivity.
Qed.

Lemma exec_ret {A : Type} (a : A) st w : exec h (ret a) st w = (w, [], (st, inr a)).
Proof. reflexivity. Qed.

Lemma exec_raise {A : Type} (e : exn) st w : exec h (@raise A e) st w = (w, [], (st, inl e)).
Proof. reflexivity. Qed.

Lemma exec_do (c : call) st w :
  exec h (do c) st w = (fst (h c w), [(c, failure (snd (h c w)))], (st, snd (h c w))).
Proof. unfold exec, do; simpl. destruct (h c w); reflexivity. Qed.

Lemma exec_bind {A B : Type} (m : M A) (f : A -> M B) st w :
  exec h (bind m f) st w =
  match exec h m st w with
  | (w1, t1, (st1, inr a)) =>
      let '(w2, t2, r) := exec h (f a) st1 w1 in (w2, (t1 ++ t2)%list, r)
  | (w1, t1, (st1, inl e)) => (w1, t1, (st1, inl e))
  end.
Proof.
  unfold exec, bind. rewrite run_pbind.
  destruct (run h (m st) w) as [[w1 t1] [st1 [e | a]]]; simpl.
  - rewrite app_nil_r; reflexivity.
  - reflexivity.
Qed.

Lemma exec_try_except {A : Type} (m : M A) (handle : exn -> M A) st w :
  exec h (try_except m handle) st w =
  match exec h m st w with
  | (w1, t1, (st1, inr a)) => (w1, t1, (st1, inr a))
  | (w1, t1, (st1, inl e)) =>
      let '(w2, t2, r) := exec h (handle e) st1 w1 in (w2, (t1 ++ t2)%list, r)
  end.
Proof.
  unfold exec, try_except. rewrite run_pbind.
  destruct (run h (m st) w) as [[w1 t1] [st1 [e | a]]]; simpl.
  - reflexivity.
  - rewrite app_nil_r; reflexivity.
Qed.

Lemma exec_get_cache st w : exec h get_cache st w = (w, [], (st, inr st)).
Proof. reflexivity. Qed.

Lemma exec_put_cache st' st w : exec h (put_cache st') st w = (w, [], (st', inr tt)).
Proof. reflexivity. Qed.

(** [except Exception as e: ...; raise] changes nothing. *)
Lemma exec_reraise {A : Type} (m : M A) st w :
  exec h (try_except m (fun e => raise e)) st w = exec h m st w.
Proof.
  rewrite exec_try_except.
  destruct (exec h m st w) as [[w1 t1] [st1 [e | a]]]; [|reflexivity].
  rewrite exec_raise, app_nil_r; reflexivity.
Qed.

End Running.


Lemma executed_app (t1 t2 : list event) :
  executed (t1 ++ t2) = (executed t1 ++ executed t2)%list.
Proof.
  induction t1 as [| [c o] t1 IH]; simpl; [reflexivity |].
  destruct c; simpl; rewrite ?IH; reflexivity.
Qed.

Lemma store_searches_app (t1 t2 : list event) :
  store_searches (t1 ++ t2) = (store_searches t1 ++ store_searches t2)%list.
Proof.
  induction t1 as [| [c o] t1 IH]; simpl; [reflexivity |].
  destruct c; simpl; rewrite ?IH; try reflexivity.
  destruct sql; simpl; rewrite ?IH; reflexivity.
Qed.

Lemma count_encode_app (t1 t2 : list event) :
  count_encode (t1 ++ t2) = (count_encode t1 + count_encode t2)%nat.
Proof.
  induction t1 as [| [c o] t1 IH]; simpl; [reflexivity |].
  destruct c; simpl; rewrite ?IH; reflexivity.
Qed.

(** Symbolic execution: normalise the program, then split on an answer of
    the environment. *)
Ltac exec_norm :=
  repeat first
    [ rewrite exec_reraise | rewrite exec_try_except | rewrite exec_bind
    | match goal with
      | |- context [@exec ?W' ?A' ?h' (do ?c) ?st ?w] =>
          change (@exec W' A' h' (do c) st w) with (@exec W' (answer c) h' (do c) st w);
          rewrite (exec_do h' c st w)
      end
    | rewrite exec_ret | rewrite exec_raise | rewrite exec_get_cache | rewrite exec_put_cache
    | progress cbn [fst snd negb failure outcome_of trace_of cache_of world_of]
    | progress cbv beta iota ].

Tactic Notation "answer" constr(h) "as" simple_intropattern(p) :=
  match goal with
  | |- context [h ?c ?w] => destruct (h c w) as p
  end; exec_norm.

Lemma pure_ret {A : Type} (a : A) : pure (ret a).
Proof. intro st; eexists; reflexivity. Qed.

Lemma pure_raise {A : Type} (e : exn) : pure (@raise A e).
Proof. intro st; eexists; reflexivity. Qed.

Lemma pure_bind {A B : Type} (m : M A) (f : A -> M B) :
  pure m -> (forall a, pure (f a)) -> pure (bind m f).
Proof.
  intros Hm Hf st. unfold bind. destruct (Hm st) as [[e | a] ->]; simpl.
  - eexists; reflexivity.
  - apply Hf.
Qed.

Lemma pure_getitem (row : list value) (i : nat) : pure (getitem row i).
Proof. unfold getitem. destruct (nth_error row i); [apply pure_ret | apply pure_raise]. Qed.

Lemma pure_dict_getitem (d : dict) (key : string) : pure (dict_getitem d key).
Proof.
  unfold dict_getitem. destruct (dict_lookup d key); [apply pure_ret | apply pure_raise].
Qed.

Lemma pure_for_each {A B : Type} (body : A -> M B) (l : list A) :
  (forall x, pure (body x)) -> pure (for_each l body).
Proof.
  intro Hbody. induction l as [| x l IH]; simpl.
  - apply pure_ret.
  - apply pure_bind; [apply Hbody | intro y].
    apply pure_bind; [exact IH | intro ys]. apply pure_ret.
Qed.

Lemma exec_pure {W A : Type} (h : handler W) (m : M A) st w :
  pure m -> exists r, exec h m st w = (w, [], (st, r)).
Proof.
  intro Hm. destruct (Hm st) as [r Hr]. exists r. unfold exec. rewrite Hr. reflexivity.
Qed.

Ltac prove_pure :=
  repeat first
    [ apply pure_ret | apply pure_raise | apply pure_getitem | apply pure_dict_getitem
    | apply pure_for_each; intro | apply pure_bind; [| intro] ].

(** ** The search endpoint's documents *)

Lemma dict_lookup_format_result (result : dict) (key : string) (default : value) :
  In (key, default)
     [("id", VStr ""); ("text", VStr ""); ("metadata", VDict []); ("score", VFloat 0%Q)] ->
  dict_lookup (format_result result) key = Some (dict_get result key default).
Proof.
  simpl; intros [H | [H | [H | [H | []]]]]; inversion H; subst; reflexivity.
Qed.

(** [get_vector_store] ends every exception in [None]. *)
Lemma get_vector_store_never_raises {W : Type} (h : handler W) st w :
  exists o, outcome_of (exec h get_vector_store st w) = inr o.
Proof.
  unfold get_vector_store. rewrite exec_try_except.
  match goal with
  | |- context [match ?x with _ => _ end] => destruct x as [[w1 t1] [st1 [e | o]]]
  end.
  - rewrite exec_ret. eexists; reflexivity.
  - eexists; reflexivity.
Qed.

Lemma exec_http_errors {W : Type} (h : handler W) (e : exn) st w :
  exec h (if is_HTTPException e then raise e
          else raise (HTTPException HTTP_500_INTERNAL_SERVER_ERROR (str_exn e))) st w
  = (w, [], (st, @inl exn VectorSearchResponse
                   (if is_HTTPException e then e
                    else HTTPException HTTP_500_INTERNAL_SERVER_ERROR (str_exn e)))).
Proof. destruct (is_HTTPException e); reflexivity. Qed.

(** A run of the endpoint that returns a response went through these steps:
    [get_vector_store] gave a store, the settings an embedder, the embedder
    a vector for the query, the store its results for that vector, and the
    clock was read before and after the search.  The documents of the
    response are the store's results of this very search, formatted one by
    one. *)
Lemma vector_store_search_response {W : Type} (h : handler W) st w request :
  match outcome_of (exec h (vector_store_search request) st w) with
  | inr response =>
      exists w1 t1 st1 o w2 emb w3 v vs w4 t0 w5 t5 st5 search_results w6 t6,
        exec h get_vector_store st w = (w1, t1, (st1, inr (Some o))) /\
        h settings_embedder w1 = (w2, inr (Some emb)) /\
        h (embedder_encode emb [rq_query request]) w2 = (w3, inr (v :: vs)) /\
        h time_time w3 = (w4, inr t0) /\
        exec h (store_similarity_search o v (rq_k request) (rq_filter_dict request)) st1 w4
        = (w5, t5, (st5, inr search_results)) /\
        h time_time w5 = (w6, inr t6) /\
        response = {| rs_results := map format_result search_results;
                      rs_latency := Qminus t6 t0 |}
  | inl _ => True
  end.
Proof.
  unfold vector_store_search.
  rewrite exec_try_except, exec_bind.
  destruct (exec h get_vector_store st w) as [[w1 t1] [st1 [e | [o |]]]] eqn:Hget;
    try (rewrite ?exec_raise, exec_http_errors; exact I).
  exec_norm.
  destruct (h settings_embedder w1) as [w2 [e | [emb |]]] eqn:Hemb; exec_norm;
    try (rewrite exec_http_errors; exact I).
  destruct (h (embedder_encode emb [rq_query request]) w2) as [w3 [e | [| v vs]]] eqn:Henc;
    exec_norm; try (rewrite exec_http_errors; exact I).
  destruct (h time_time w3) as [w4 [e | t0]] eqn:Ht0; exec_norm;
    try (rewrite exec_http_errors; exact I).
  destruct (exec h (store_similarity_search o v (rq_k request) (rq_filter_dict request)) st1 w4)
    as [[w5 t5] [st5 [e | results]]] eqn:Hsearch; exec_norm;
    try (rewrite exec_http_errors; exact I).
  destruct (h time_time w5) as [w6 [e | t6]] eqn:Ht6; exec_norm;
    try (rewrite exec_http_errors; exact I).
  exists w1, t1, st1, o, w2, emb, w3, v, vs, w4, t0, w5, t5, st5, results, w6, t6.
  repeat split; assumption.
Qed.

(** A result with an [id] only comes back with the three defaults. *)
Example search_fills_defaults :
  outcome_of (exec Model.hana
    (vector_store_search {| rq_query := "hello"; rq_k := 5; rq_filter_dict := None |})
    [] Toy.with_duck)
  = inr {| rs_results := [[("id", VStr "x"); ("text", VStr "");
                           ("metadata", VDict []); ("score", VFloat 0%Q)]];
           rs_latency := 1%Q |}.
Proof. reflexivity. Qed.

(** C10: every document of a [POST /search] response has the four fields
    [id], [text], [metadata] and [score], in this order; a field the store's
    result lacks is filled with its default (the empty string for [id] and
    [text], the empty map for [metadata], [0.0] for [score]), a field it has
    is passed on.  The documents of a response are built this way from the
    results the store returned in the same run, one document per result
    and in the store's order: whenever the endpoint returns a response, the
    run obtained a store [o], an embedding [v] of the query and the list
    [search_results] from [o]'s similarity search for [v], and the response
    holds [format_result] of each entry of [search_results]. *)
Theorem search_response_documents_complete :
  (forall result : dict,
     dict_keys (format_result result) = ["id"; "text"; "metadata"; "score"] /\
     dict_lookup (format_result result) "id"
       = Some match dict_lookup result "id" with Some v => v | None => VStr "" end /\
     dict_lookup (format_result result) "text"
       = Some match dict_lookup result "text" with Some v => v | None => VStr "" end /\
     dict_lookup (format_result result) "metadata"
       = Some match dict_lookup result "metadata" with Some v => v | None => VDict [] end /\
     dict_lookup (format_result result) "score"
       = Some match dict_lookup result "score" with Some v => v | None => VFloat 0%Q end) /\
  (forall (W : Type) (h : handler W) st w request,
     match outcome_of (exec h (vector_store_search request) st w) with
     | inr response =>
         exists w1 t1 st1 o w2 emb w3 v vs w4 t0 w5 t5 st5 search_results w6 t6,
           (* the steps of this run up to the store's answer *)
           exec h get_vector_store st w = (w1, t1, (st1, inr (Some o))) /\
           h settings_embedder w1 = (w2, inr (Some emb)) /\
           h (embedder_encode emb [rq_query request]) w2 = (w3, inr (v :: vs)) /\
           h time_time w3 = (w4, inr t0) /\
           exec h (store_similarity_search o v (rq_k request) (rq_filter_dict request))
                st1 w4
           = (w5, t5, (st5, inr search_results)) /\
           h time_time w5 = (w6, inr t6) /\
           (* the response is made of these results *)
           response = {| rs_results := map format_result search_results;
                         rs_latency := Qminus t6 t0 |} /\
           List.length (rs_results response) = List.length search_results /\
           (forall i result,
              nth_error search_results i = Some result ->
              nth_error (rs_results response) i = Some (format_result result)) /\
           Forall (fun doc => dict_keys doc = ["id"; "text"; "metadata"; "score"])
                  (rs_results response)
     | inl _ => True
     end).
Proof.
  split.
  - intro result. repeat split.
  - intros W h st w request.
    pose proof (vector_store_search_response h st w request) as H.
    destruct (outcome_of (exec h (vector_store_search request) st w)) as [e | response];
      [exact I |].
    destruct H as (w1 & t1 & st1 & o & w2 & emb & w3 & v & vs & w4 & t0 & w5 & t5 & st5
                   & search_results & w6 & t6 & Hget & Hemb & Henc & Ht0 & Hsearch & Ht6
                   & Hresponse).
    exists w1, t1, st1, o, w2, emb, w3, v, vs, w4, t0, w5, t5, st5, search_results, w6, t6.
    repeat (split; [assumption |]).
    subst response. cbn [rs_results].
    split; [apply length_map |].
    split.
    + intros i result Hi. rewrite nth_error_map, Hi. reflexivity.
    + apply Forall_forall. intros doc Hin.
      apply in_map_iff in Hin. destruct Hin as [result [<- _]]. reflexivity.
Qed.

(** ** [HanaVectorStore.similarity_search] *)

(** What [similarity_search] sends to the database: nothing when no cursor
    could be opened, else the one search statement. *)
Lemma similarity_search_executed {W : Type} (h : handler W) st w self qv k f :
  let r := exec h (similarity_search self qv k f) st w in
  cache_of r = st /\
  match outcome_of r with
  | inr _ =>
      executed (trace_of r)
      = [(search_query (hs_table_fqn self) (truthy_dict f), search_params qv k f)]
  | inl _ =>
      executed (trace_of r) = [] \/
      executed (trace_of r)
      = [(search_query (hs_table_fqn self) (truthy_dict f), search_params qv k f)]
  end.
Proof.
  unfold similarity_search, search_params; cbv zeta.
  rewrite exec_reraise, exec_bind.
  destruct (hs_connection self) as [c |]; unfold cursor_of; exec_norm;
    [| split; [reflexivity | left; reflexivity]].
  answer h as [w1 [e | cur]]; [split; [reflexivity | left; reflexivity] |].
  destruct (truthy_dict f); exec_norm.
  - answer h as [w2 [e | []]]; [split; [reflexivity | right; reflexivity] |].
    answer h as [w3 [e | rows]]; [split; [reflexivity | right; reflexivity] |].
    match goal with |- context [exec h (for_each rows ?body) ?s ?w] =>
      destruct (exec_pure h (for_each rows body) s w ltac:(prove_pure)) as [[e | results] ->] end;
      exec_norm; [split; [reflexivity | right; reflexivity] |].
    answer h as [w4 [e | []]]; split; try reflexivity. right; reflexivity.
  - answer h as [w2 [e | []]]; [split; [reflexivity | right; reflexivity] |].
    answer h as [w3 [e | rows]]; [split; [reflexivity | right; reflexivity] |].
    match goal with |- context [exec h (for_each rows ?body) ?s ?w] =>
      destruct (exec_pure h (for_each rows body) s w ltac:(prove_pure)) as [[e | results] ->] end;
      exec_norm; [split; [reflexivity | right; reflexivity] |].
    answer h as [w4 [e | []]]; split; try reflexivity. right; reflexivity.
Qed.

(** ** The embedding cache *)

Lemma lru_key_eqb_refl (key : lru_key) : lru_key_eqb key key = true.
Proof.
  unfold lru_key_eqb. rewrite Nat.eqb_refl, String.eqb_refl. reflexivity.
Qed.

Lemma lru_find_touch key v cache : lru_find key (lru_touch key v cache) = Some v.
Proof. unfold lru_touch; simpl. rewrite lru_key_eqb_refl. reflexivity. Qed.

Lemma lru_find_store key v cache :
  lru_find key cache = None -> lru_find key (lru_store maxsize key v cache) = Some v.
Proof.
  intro Hmiss. unfold lru_store. rewrite Hmiss.
  destruct (Nat.leb maxsize (List.length cache)); simpl; rewrite lru_key_eqb_refl; reflexivity.
Qed.

(** The body of [_get_embedding]: it reads the embedder from the settings
    and, if there is one, has it encode the text. *)
Lemma exec_get_embedding_body {W : Type} (h : handler W) st w self text :
  exec h (_get_embedding_body self text) st w =
  match h settings_embedder w with
  | (w1, inl e) => (w1, [(settings_embedder, Some e)], (st, inl e))
  | (w1, inr None) =>
      (w1, [(settings_embedder, None)],
       (st, inl (ValueError "No embedder configured in DSPy settings")))
  | (w1, inr (Some emb)) =>
      match h (embedder_encode emb [text]) w1 with
      | (w2, inl e) =>
          (w2, [(settings_embedder, None); (embedder_encode emb [text], Some e)],
           (st, inl e))
      | (w2, inr []) =>
          (w2, [(settings_embedder, None); (embedder_encode emb [text], None)],
           (st, inl (IndexError "index 0 is out of bounds")))
      | (w2, inr (v :: _)) =>
          (w2, [(settings_embedder, None); (embedder_encode emb [text], None)],
           (st, inr v))
      end
  end.
Proof.
  unfold _get_embedding_body. exec_norm.
  destruct (h settings_embedder w) as [w1 [e | [emb |]]]; exec_norm; try reflexivity.
  destruct (h (embedder_encode emb [text]) w1) as [w2 [e | [| v vs]]]; exec_norm; reflexivity.
Qed.

Lemma get_embedding_body_cache {W : Type} (h : handler W) st w self text :
  cache_of (exec h (_get_embedding_body self text) st w) = st.
Proof.
  rewrite exec_get_embedding_body.
  destruct (h settings_embedder w) as [w1 [e | [emb |]]]; try reflexivity.
  destruct (h (embedder_encode emb [text]) w1) as [w2 [e | [| v vs]]]; reflexivity.
Qed.

(** The body always starts by reading the embedder setting, and encodes at
    most once. *)
Lemma get_embedding_body_trace {W : Type} (h : handler W) st w self text :
  exists t, calls (trace_of (exec h (_get_embedding_body self text) st w))
            = settings_embedder :: t /\
            (count_encode (trace_of (exec h (_get_embedding_body self text) st w)) <= 1)%nat /\
            executed (trace_of (exec h (_get_embedding_body self text) st w)) = [].
Proof.
  rewrite exec_get_embedding_body.
  destruct (h settings_embedder w) as [w1 [e | [emb |]]];
    try (eexists; repeat split; simpl; lia).
  destruct (h (embedder_encode emb [text]) w1) as [w2 [e | [| v vs]]];
    eexists; repeat split; simpl; lia.
Qed.

(** A hit: the stored vector, and no call. *)
Lemma get_embedding_hit {W : Type} (h : handler W) st w self text v :
  lru_find (rm_id self, text) st = Some v ->
  exec h (_get_embedding self text) st w
  = (w, [], (lru_touch (rm_id self, text) v st, inr v)).
Proof.
  intro Hhit. unfold _get_embedding, lru_cache. exec_norm. rewrite Hhit. exec_norm.
  reflexivity.
Qed.

(** A miss: the body runs; its vector is stored, its exception is not. *)
Lemma get_embedding_miss {W : Type} (h : handler W) st w self text :
  lru_find (rm_id self, text) st = None ->
  exec h (_get_embedding self text) st w
  = match exec h (_get_embedding_body self text) st w with
    | (w1, t1, (st1, inr v)) => (w1, t1, (lru_store maxsize (rm_id self, text) v st, inr v))
    | (w1, t1, (st1, inl e)) => (w1, t1, (st, inl e))
    end.
Proof.
  intro Hmiss. unfold _get_embedding, lru_cache. exec_norm. rewrite Hmiss. exec_norm.
  pose proof (get_embedding_body_cache h st w self text) as Hc.
  destruct (exec h (_get_embedding_body self text) st w) as [[w1 t1] [st1 [e | v]]];
    unfold cache_of in Hc; simpl in Hc; subst st1; exec_norm; rewrite ?app_nil_r; reflexivity.
Qed.

(** C7: when a call of [_get_embedding] has returned a vector, it has
    invoked the embedder at most once, and a second call with the same
    text, in whatever environment, returns the same vector without any
    call, so the two calls together invoke the embedder at most once; and
    whenever the cache holds a vector for the text, that vector is returned
    without invoking anything. *)
Theorem get_embedding_twice :
  forall (W : Type) (h : handler W) st w self text w1 t1 st1 v,
    exec h (_get_embedding self text) st w = (w1, t1, (st1, inr v)) ->
    (forall (W' : Type) (h' : handler W') w',
       trace_of (exec h' (_get_embedding self text) st1 w') = [] /\
       outcome_of (exec h' (_get_embedding self text) st1 w') = inr v /\
       (count_encode (t1 ++ trace_of (exec h' (_get_embedding self text) st1 w')) <= 1)%nat) /\
    (forall (W' : Type) (h' : handler W') st' w' v',
       lru_find (rm_id self, text) st' = Some v' ->
       trace_of (exec h' (_get_embedding self text) st' w') = [] /\
       outcome_of (exec h' (_get_embedding self text) st' w') = inr v').
Proof.
  intros W h st w self text w1 t1 st1 v Hfirst.
  assert (Hhit : forall (W' : Type) (h' : handler W') st' w' v',
             lru_find (rm_id self, text) st' = Some v' ->
             trace_of (exec h' (_get_embedding self text) st' w') = [] /\
             outcome_of (exec h' (_get_embedding self text) st' w') = inr v').
  { intros W' h' st' w' v' Hfind. rewrite (get_embedding_hit h' st' w' self text v' Hfind).
    split; reflexivity. }
  split; [| exact Hhit].
  assert (Hstored : lru_find (rm_id self, text) st1 = Some v /\ (count_encode t1 <= 1)%nat).
  { destruct (lru_find (rm_id self, text) st) as [v0 |] eqn:Hfind.
    - rewrite (get_embedding_hit h st w self text v0 Hfind) in Hfirst.
      inversion Hfirst; subst. split; [apply lru_find_touch | simpl; lia].
    - rewrite (get_embedding_miss h st w self text Hfind) in Hfirst.
      destruct (get_embedding_body_trace h st w self text) as [t [_ [Hcount _]]].
      destruct (exec h (_get_embedding_body self text) st w) as [[w2 t2] [st2 [e | v2]]];
        inversion Hfirst; subst.
      split; [apply lru_find_store; exact Hfind | exact Hcount]. }
  destruct Hstored as [Hstored Hcount].
  intros W' h' w'. destruct (Hhit W' h' st1 w' v Hstored) as [Ht Ho].
  rewrite Ht, Ho, app_nil_r. repeat split. exact Hcount.
Qed.

Lemma get_embedding_twice_witness :
  exec Model.hana (_get_embedding Toy.rm "hello") [] Toy.fresh
    = (Toy.fresh,
       [(settings_embedder, None); (embedder_encode 0%nat ["hello"], None)],
       ([((7%nat, "hello"), [1%Q; 0%Q])], inr [1%Q; 0%Q])) /\
  trace_of (exec Model.hana (_get_embedding Toy.rm "hello")
              [((7%nat, "hello"), [1%Q; 0%Q])] Toy.no_embedder) = [] /\
  outcome_of (exec Model.hana (_get_embedding Toy.rm "hello")
                [((7%nat, "hello"), [1%Q; 0%Q])] Toy.no_embedder) = inr [1%Q; 0%Q].
Proof.
  split; [reflexivity |].
  destruct (get_embedding_twice Model.world Model.hana [] Toy.fresh Toy.rm "hello"
              Toy.fresh
              [(settings_embedder, None); (embedder_encode 0%nat ["hello"], None)]
              [((7%nat, "hello"), [1%Q; 0%Q])] [1%Q; 0%Q] eq_refl) as [Hsecond _].
  destruct (Hsecond Model.world Model.hana Toy.no_embedder) as [Ht [Ho _]].
  split; [exact Ht | exact Ho].
Defined.


(** C8: when a call of [_get_embedding] ends in an exception, the exception
    is the one its body ended in, the cache is what it was before the call
    and holds no entry for the text, and a later call with the same text
    runs the body again: it reads the embedder setting anew and does what
    the body does then.  With no embedder configured and no entry for the
    text, the call ends in the [ValueError] of the body. *)
Theorem get_embedding_failure :
  (forall (W : Type) (h : handler W) st w self text w1 t1 st1 e,
     exec h (_get_embedding self text) st w = (w1, t1, (st1, inl e)) ->
     st1 = st /\
     lru_find (rm_id self, text) st1 = None /\
     exec h (_get_embedding_body self text) st w = (w1, t1, (st, inl e)) /\
     (forall (W' : Type) (h' : handler W') w',
        (exists t, calls (trace_of (exec h' (_get_embedding self text) st1 w'))
                   = settings_embedder :: t) /\
        trace_of (exec h' (_get_embedding self text) st1 w')
          = trace_of (exec h' (_get_embedding_body self text) st1 w') /\
        outcome_of (exec h' (_get_embedding self text) st1 w')
          = outcome_of (exec h' (_get_embedding_body self text) st1 w'))) /\
  (forall (W : Type) (h : handler W) st w self text,
     lru_find (rm_id self, text) st = None ->
     snd (h settings_embedder w) = inr None ->
     outcome_of (exec h (_get_embedding self text) st w)
       = inl (ValueError "No embedder configured in DSPy settings") /\
     cache_of (exec h (_get_embedding self text) st w) = st).
Proof.
  assert (Hagain : forall (W' : Type) (h' : handler W') st' w' self text,
             lru_find (rm_id self, text) st' = None ->
             trace_of (exec h' (_get_embedding self text) st' w')
               = trace_of (exec h' (_get_embedding_body self text) st' w') /\
             outcome_of (exec h' (_get_embedding self text) st' w')
               = outcome_of (exec h' (_get_embedding_body self text) st' w')).
  { intros W' h' st' w' self text Hfind.
    rewrite (get_embedding_miss h' st' w' self text Hfind).
    destruct (exec h' (_get_embedding_body self text) st' w') as [[w2 t2] [st2 [e | v]]];
      split; reflexivity. }
  split.
  - intros W h st w self text w1 t1 st1 e Hcall.
    destruct (lru_find (rm_id self, text) st) as [v0 |] eqn:Hfind.
    { rewrite (get_embedding_hit h st w self text v0 Hfind) in Hcall. discriminate. }
    rewrite (get_embedding_miss h st w self text Hfind) in Hcall.
    pose proof (get_embedding_body_cache h st w self text) as Hc.
    destruct (exec h (_get_embedding_body self text) st w) as [[w2 t2] [st2 [e2 | v2]]];
      unfold cache_of in Hc; simpl in Hc; subst st2; [| discriminate].
    injection Hcall as Hw Ht Hst He. subst w1 t1 st1 e.
    repeat split; try assumption.
    + destruct (Hagain W' h' st w' self text Hfind) as [-> _].
      destruct (get_embedding_body_trace h' st w' self text) as [t [Ht _]].
      exists t; exact Ht.
    + apply Hagain; exact Hfind.
    + apply Hagain; exact Hfind.
  - intros W h st w self text Hfind Hnone.
    rewrite (get_embedding_miss h st w self text Hfind), exec_get_embedding_body.
    destruct (h settings_embedder w) as [w1 r]. simpl in Hnone; subst r.
    split; reflexivity.
Qed.

Lemma get_embedding_failure_witness :
  exec Model.hana (_get_embedding Toy.rm "hello") [] Toy.no_embedder
    = (Toy.no_embedder, [(settings_embedder, None)],
       ([], inl (ValueError "No embedder configured in DSPy settings"))) /\
  (exists t, calls (trace_of (exec Model.hana (_get_embedding Toy.rm "hello") [] Toy.fresh))
             = settings_embedder :: t) /\
  cache_of (exec Model.hana (_get_embedding Toy.rm "hello") [] Toy.no_embedder) = [].
Proof.
  split; [reflexivity |].
  destruct get_embedding_failure as [Hfail Hnone].
  destruct (Hfail Model.world Model.hana [] Toy.no_embedder Toy.rm "hello"
              Toy.no_embedder [(settings_embedder, None)] []
              (ValueError "No embedder configured in DSPy settings") eq_refl)
    as [_ [_ [_ Hagain]]].
  split.
  - exact (proj1 (Hagain Model.world Model.hana Toy.fresh)).
  - exact (proj2 (Hnone Model.world Model.hana [] Toy.no_embedder Toy.rm "hello"
                    eq_refl eq_refl)).
Defined.


Lemma get_embedding_executed {W : Type} (h : handler W) st w self text :
  executed (trace_of (exec h (_get_embedding self text) st w)) = [].
Proof.
  destruct (lru_find (rm_id self, text) st) as [v |] eqn:Hfind.
  - rewrite (get_embedding_hit h st w self text v Hfind). reflexivity.
  - rewrite (get_embedding_miss h st w self text Hfind).
    destruct (get_embedding_body_trace h st w self text) as [t [_ [_ Hex]]].
    destruct (exec h (_get_embedding_body self text) st w) as [[w1 t1] [st1 [e | v]]];
      exact Hex.
Qed.

(** ** [SAPHanaRM.forward] *)

(** C2, as amended: [forward] searches with the configured default [self.k]
    when the caller passes no [k] or [k = 0], and with the caller's [k]
    when that is any other integer, negative ones included: whenever the
    search statement reaches the database, its [LIMIT] receives that
    number, and it does reach the database once when [forward] returns. *)
Theorem forward_limit :
  forall (W : Type) (h : handler W) st w self query k,
    let r := exec h (forward self query k) st w in
    let used := match k with
                | None => rm_k self
                | Some n => if n =? 0 then rm_k self else n
                end in
    match outcome_of r with
    | inr _ => searched_limits (executed (trace_of r)) = [Some (VInt used)]
    | inl _ => searched_limits (executed (trace_of r)) = [] \/
               searched_limits (executed (trace_of r)) = [Some (VInt used)]
    end.
Proof.
  intros W h st w self query k. cbv zeta. unfold forward.
  change (k_or k (rm_k self))
    with (match k with None => rm_k self | Some n => if n =? 0 then rm_k self else n end).
  set (used := match k with None => rm_k self | Some n => if n =? 0 then rm_k self else n end).
  rewrite exec_bind.
  pose proof (get_embedding_executed h st w self query) as Hemb.
  destruct (exec h (_get_embedding self query) st w) as [[w1 t1] [st1 [e | qv]]];
    unfold trace_of in Hemb; simpl in Hemb.
  { exec_norm. rewrite Hemb. left; reflexivity. }
  rewrite exec_bind.
  pose proof (similarity_search_executed h st1 w1 (rm_vector_store self) qv used None) as Hs.
  cbv zeta in Hs. destruct Hs as [_ Hs].
  destruct (exec h (similarity_search (rm_vector_store self) qv used None) st1 w1)
    as [[w2 t2] [st2 [e | results]]]; unfold trace_of, outcome_of in Hs; simpl in Hs.
  { exec_norm. rewrite executed_app, Hemb. simpl.
    destruct Hs as [-> | ->]; [left | right]; reflexivity. }
  match goal with |- context [exec h (for_each results ?body) ?s ?w] =>
    destruct (exec_pure h (for_each results body) s w ltac:(prove_pure)) as [r ->] end.
  exec_norm. rewrite !executed_app, Hemb, Hs. simpl.
  destruct r; [right |]; reflexivity.
Qed.

(** C2, as stated, fails: a negative [k] is not replaced by the default. *)
Lemma forward_negative_k :
  rm_k Toy.rm = 5 /\
  searched_limits (executed (trace_of
    (exec Model.hana (forward Toy.rm "hello" (Some (-1))) [] Toy.provisioned)))
  = [Some (VInt (-1))].
Proof. split; reflexivity. Qed.

(** ** [HanaVectorStore.close] *)

(** C6, as amended: every [close] of a store that holds a connection calls
    the driver's [close] on it, the second as the first; two calls in a row
    release the transport twice when the first succeeds, and the second
    fails exactly when the driver fails it.  Only a store without a
    connection is closed without any call. *)
Theorem close_twice :
  forall (W : Type) (h : handler W) st w self,
    let r := exec h (close self ;;; close self) st w in
    match hs_connection self with
    | None => trace_of r = [] /\ outcome_of r = inr tt
    | Some c =>
        match failures (trace_of r) with
        | [] => calls (trace_of r) = [connection_close c; connection_close c] /\
                outcome_of r = inr tt
        | e :: _ => Forall (eq (connection_close c)) (calls (trace_of r)) /\
                    outcome_of r = inl e
        end
    end.
Proof.
  intros W h st w self. cbv zeta. unfold close.
  destruct (hs_connection self) as [c |]; exec_norm; [| split; reflexivity].
  answer h as [w1 [e | []]].
  - split; [repeat constructor | reflexivity].
  - answer h as [w2 [e | []]]; simpl; split; try reflexivity. repeat constructor.
Qed.

(** C6, as stated, fails: the second [close] releases the transport again. *)
Lemma close_twice_releases_twice :
  calls (trace_of (exec Model.hana (close Toy.store ;;; close Toy.store) [] Toy.provisioned))
    = [connection_close 0%nat; connection_close 0%nat] /\
  Model.w_closes (world_of
    (exec Model.hana (close Toy.store ;;; close Toy.store) [] Toy.provisioned))
    = [0%nat; 0%nat].
Proof. split; reflexivity. Qed.

(** ** [HanaVectorStore._init_table] *)

Lemma pure_gt_zero (v : value) : pure (gt_zero v).
Proof. destruct v; simpl; first [apply pure_ret | apply pure_raise]. Qed.

(** C4, as amended: schema provisioning swallows no failure.  When
    [_init_table] returns, no call to the store has failed, and it has sent
    either the existence check alone or the check, the [CREATE TABLE] and the
    [CREATE INDEX]; when a call to the store fails, with "already exists" as
    with anything else, that call was the last one and [_init_table] ends in
    its exception. *)
Theorem init_table_swallows_nothing :
  forall (W : Type) (h : handler W) st w self,
    let r := exec h (_init_table self) st w in
    let check := (table_check_query, [VStr (hs_schema self); VStr (hs_table self)]) in
    let create :=
      [(create_table_query (hs_table_fqn self) (hs_dimension self), []);
       (create_index_query (hs_table self) (hs_table_fqn self), [])] in
    match outcome_of r with
    | inr _ => failures (trace_of r) = [] /\
               (executed (trace_of r) = [check] \/ executed (trace_of r) = check :: create)
    | inl e => failures (trace_of r) = [] \/ failures (trace_of r) = [e]
    end.
Proof.
  intros W h st w self. cbv zeta. unfold _init_table.
  rewrite exec_reraise, exec_bind.
  destruct (hs_connection self) as [c |]; unfold cursor_of; exec_norm; [| left; reflexivity].
  answer h as [w1 [e | cur]]; [right; reflexivity |].
  answer h as [w2 [e | []]]; [right; reflexivity |].
  answer h as [w3 [e | [row |]]]; [right; reflexivity | | left; reflexivity].
  unfold getitem. destruct (nth_error row 0) as [count |]; exec_norm; [| left; reflexivity].
  destruct (exec_pure h (gt_zero count) st w3 (pure_gt_zero count)) as [[e | exists_] ->];
    exec_norm; [left; reflexivity |].
  destruct exists_; exec_norm.
  - answer h as [w4 [e | []]]; [right; reflexivity |].
    split; [reflexivity | left; reflexivity].
  - answer h as [w4 [e | []]]; [right; reflexivity |].
    answer h as [w5 [e | []]]; [right; reflexivity |].
    answer h as [w6 [e | []]]; [right; reflexivity |].
    split; [reflexivity | right; reflexivity].
Qed.

(** C4, as stated, fails: the provisioner that loses the race ends in the
    store's duplicate-table error. *)
Lemma init_table_race :
  snd (fst (interleave Model.hana Toy.race
              (_init_table Toy.store []) (_init_table Toy.store []) Toy.fresh))
    = Ret ([], inr tt) /\
  snd (interleave Model.hana Toy.race
         (_init_table Toy.store []) (_init_table Toy.store []) Toy.fresh)
    = Ret ([], inl (DriverError 288 "cannot use duplicate table name")).
Proof. split; reflexivity. Qed.

(** ** [HanaVectorStore.add_documents] *)

(** The loop of [add_documents]: the records go to the store one by one,
    in order, until a call fails. *)
Lemma exec_upsert_loop {W : Type} (h : handler W) (cur : cursor) (fqn : string)
    (pairs : list (dict * vector)) st w :
  let r := exec h (for_each pairs (fun de =>
             let '(doc, emb) := de in
             let doc_id := dict_get doc "id" VNone in
             let text := dict_get doc "text" (VStr "") in
             let metadata := dict_get doc "metadata" (VStr "{}") in
             do (cursor_execute cur (insert_query fqn)
                   [doc_id; text; of_vector emb; metadata]))) st w in
  cache_of r = st /\
  match outcome_of r with
  | inr _ => executed (trace_of r) = map (upsert_of fqn) pairs
  | inl _ => exists n, (0 < n)%nat /\ executed (trace_of r) = firstn n (map (upsert_of fqn) pairs)
  end.
Proof.
  cbv zeta. revert w. induction pairs as [| [doc emb] pairs IH]; intro w.
  - simpl. exec_norm. split; reflexivity.
  - cbn [for_each]. exec_norm.
    answer h as [w1 [e | []]].
    + split; [reflexivity |]. exists 1%nat. split; [lia | reflexivity].
    + specialize (IH w1).
      match type of IH with context [exec h ?m st w1] =>
        destruct (exec h m st w1) as [[w2 t2] [st2 [e | ys]]] end;
        exec_norm; unfold cache_of, outcome_of, trace_of in IH; cbn [fst snd] in IH;
        destruct IH as [-> IH]; (split; [reflexivity |]).
      * destruct IH as [n [Hn IH]]. exists (S n). split; [lia |].
        cbn [app executed map firstn]. rewrite IH. reflexivity.
      * rewrite app_nil_r. cbn [app executed map]. rewrite IH. reflexivity.
Qed.

(** C5, as amended: the one check [add_documents] makes before writing is
    that there are as many documents as embeddings; on a mismatch of the
    two counts it ends in a [ValueError] without any call.  The length of a
    vector is never compared with the configured dimension, which plays no
    role: with equal counts the records are handed to the store's [UPSERT]
    as they are, in order, all of them when the call returns and up to the
    first failing call otherwise. *)
Theorem add_documents_checks_counts_only :
  forall (W : Type) (h : handler W) st w self documents embeddings,
    let r := exec h (add_documents self documents embeddings) st w in
    let upserts := map (upsert_of (hs_table_fqn self)) (combine documents embeddings) in
    (if Nat.eqb (List.length documents) (List.length embeddings) then
       match outcome_of r with
       | inr _ => executed (trace_of r) = upserts
       | inl _ => exists n, executed (trace_of r) = firstn n upserts
       end
     else
       trace_of r = [] /\
       outcome_of r = inl (ValueError "Number of documents must match number of embeddings")) /\
    (forall dimension,
       exec h (add_documents (with_dimension self dimension) documents embeddings) st w = r).
Proof.
  intros W h st w self documents embeddings. cbv zeta. split; [| reflexivity].
  unfold add_documents.
  destruct (Nat.eqb (List.length documents) (List.length embeddings)); cbn [negb];
    [| split; reflexivity].
  rewrite exec_reraise, exec_bind.
  destruct (hs_connection self) as [c |]; unfold cursor_of; exec_norm;
    [| exists 0%nat; reflexivity].
  answer h as [w1 [e | cur]]; [exists 0%nat; reflexivity |].
  pose proof (exec_upsert_loop h cur (hs_table_fqn self) (combine documents embeddings) st w1)
    as Hloop. cbv zeta in Hloop.
  match type of Hloop with context [exec h ?m st w1] =>
    destruct (exec h m st w1) as [[w2 t2] [st2 [e | ys]]] end;
    unfold cache_of, outcome_of, trace_of in Hloop; cbn [fst snd] in Hloop;
    destruct Hloop as [-> Hloop]; exec_norm.
  - destruct Hloop as [n [_ Hloop]]. exists n. exact Hloop.
  - answer h as [w3 [e | []]].
    + exists (List.length (combine documents embeddings)).
      cbn [app executed]. rewrite executed_app, Hloop. cbn [executed].
      rewrite app_nil_r, <- (length_map (upsert_of (hs_table_fqn self))), firstn_all.
      reflexivity.
    + answer h as [w4 [e | []]]; cbn [app executed]; rewrite executed_app, Hloop;
        cbn [executed]; rewrite app_nil_r; [| reflexivity].
      exists (List.length (combine documents embeddings)).
      rewrite <- (length_map (upsert_of (hs_table_fqn self))), firstn_all. reflexivity.
Qed.

(** C5, as stated, fails: a vector of length 1 for a table of dimension 2
    is written to the store, and it is the store that rejects it. *)
Lemma add_documents_sends_short_vector :
  hs_dimension Toy.store = 2 /\
  exec Model.hana (add_documents Toy.store [[("id", VStr "c")]] [[1%Q]]) [] Toy.provisioned
  = (Model.with_db Toy.provisioned (Model.w_tables Toy.provisioned)
       (Model.w_indexes Toy.provisioned) [(0%nat, [])] 1,
     [(connection_cursor 0%nat, None);
      (cursor_execute 0%nat (insert_query "PUBLIC.VECTOR_STORE")
         [VStr "c"; VStr ""; VList [VFloat 1%Q]; VStr "{}"],
       Some (DriverError 2048 "array cardinality does not match the column"))],
     ([], inl (DriverError 2048 "array cardinality does not match the column"))).
Proof. split; reflexivity. Qed.

(** ** The parameters of the search statement *)

(** Without a filter, the statement has two placeholders and each
    receives its own parameter. *)
Lemma search_binding_without_filter (fqn : string) (qv : vector) (k : Z) :
  binding (search_query fqn false) (search_params qv k None)
  = [(ph_cosine_similarity, of_vector qv); (ph_limit, VInt k)].
Proof. reflexivity. Qed.

(** With a filter, the parameters are the vector, [k] and the pattern, in
    this order, for the placeholders of [COSINE_SIMILARITY], [LIKE] and
    [LIMIT]: [LIKE] receives [k], [LIMIT] the pattern. *)
Lemma search_binding_with_filter (fqn : string) (qv : vector) (k : Z) kv rest :
  binding (search_query fqn true) (search_params qv k (Some (kv :: rest)))
  = [(ph_cosine_similarity, of_vector qv);
     (ph_like, VInt k);
     (ph_limit, VStr ("%" ++ repr (VDict (kv :: rest)) ++ "%"))].
Proof. reflexivity. Qed.

(** C1 fails on the code: with a filter, the search statement does not
    receive its parameters in the order of its placeholders.  In every
    environment, a search with a non-empty filter that reaches the database
    has [k] bound to the [LIKE] placeholder and the filter's pattern to the
    [LIMIT] placeholder; in the model environment the database rejects
    the statement and the search ends in its error instead of the filtered,
    ordered results. *)
Theorem similarity_search_filter_misbound :
  (forall (W : Type) (h : handler W) st w self qv k kv rest,
     Forall (fun sp =>
               binding (fst sp) (snd sp)
               = [(ph_cosine_similarity, of_vector qv);
                  (ph_like, VInt k);
                  (ph_limit, VStr ("%" ++ repr (VDict (kv :: rest)) ++ "%"))])
            (executed (trace_of
               (exec h (similarity_search self qv k (Some (kv :: rest))) st w)))) /\
  executed (trace_of
    (exec Model.hana
       (similarity_search Toy.store [1%Q; 0%Q] 5 (Some [("source", VStr "a")]))
       [] Toy.provisioned))
  = [(search_query "PUBLIC.VECTOR_STORE" true,
      [VList [VFloat 1%Q; VFloat 0%Q]; VInt 5; VStr "%{'source': 'a'}%"])] /\
  outcome_of
    (exec Model.hana
       (similarity_search Toy.store [1%Q; 0%Q] 5 (Some [("source", VStr "a")]))
       [] Toy.provisioned)
  = inl (DriverError 339 "invalid number").
Proof.
  split; [| split; reflexivity].
  intros W h st w self qv k kv rest.
  pose proof (similarity_search_executed h st w self qv k (Some (kv :: rest))) as H.
  cbv zeta in H. destruct H as [_ H].
  destruct (outcome_of (exec h (similarity_search self qv k (Some (kv :: rest))) st w));
    [destruct H as [-> | ->] | rewrite H]; repeat constructor.
Qed.

(** The statement itself is sound: with the pattern given to [LIKE] and
    [k] to [LIMIT], the model database returns the matching record. *)
Example search_statement_in_placeholder_order :
  Model.execute Toy.provisioned (search_query "PUBLIC.VECTOR_STORE" true)
    [VList [VFloat 1%Q; VFloat 0%Q]; VStr "%{'source': 'b'}%"; VInt 5]
  = inr (Model.w_tables Toy.provisioned, Model.w_indexes Toy.provisioned,
         [[VStr "b"; VStr "second"; VStr "{'source': 'b'}"; VFloat 0%Q]]).
Proof. reflexivity. Qed.

(** The scenario of the specification, without a filter: [a] is the
    nearest record, then [b]. *)
Example search_scenario_k1 :
  outcome_of (exec Model.hana (similarity_search Toy.store [1%Q; 0%Q] 1 None)
                [] Toy.provisioned)
  = inr [[("id", VStr "a"); ("text", VStr "first");
          ("metadata", VStr "{'source': 'a'}"); ("score", VFloat 1%Q)]].
Proof. reflexivity. Qed.

Example search_scenario_k2 :
  outcome_of (exec Model.hana (similarity_search Toy.store [1%Q; 0%Q] 2 None)
                [] Toy.provisioned)
  = inr [[("id", VStr "a"); ("text", VStr "first");
          ("metadata", VStr "{'source': 'a'}"); ("score", VFloat 1%Q)];
         [("id", VStr "b"); ("text", VStr "second");
          ("metadata", VStr "{'source': 'b'}"); ("score", VFloat 0%Q)]].
Proof. reflexivity. Qed.

(** ** Computations that do not search *)

Lemma quiet_pure {A : Type} (m : M A) : pure m -> quiet m.
Proof.
  intros Hm W h st w. destruct (exec_pure h m st w Hm) as [r ->]. reflexivity.
Qed.

Lemma quiet_bind {A B : Type} (m : M A) (f : A -> M B) :
  quiet m -> (forall a, quiet (f a)) -> quiet (bind m f).
Proof.
  intros Hm Hf W h st w. rewrite exec_bind. specialize (Hm W h st w).
  destruct (exec h m st w) as [[w1 t1] [st1 [e | a]]]; [exact Hm |].
  specialize (Hf a W h st1 w1).
  destruct (exec h (f a) st1 w1) as [[w2 t2] r].
  unfold trace_of in *; simpl in *. rewrite store_searches_app, Hm, Hf. reflexivity.
Qed.

Lemma quiet_try_except {A : Type} (m : M A) (handle : exn -> M A) :
  quiet m -> (forall e, quiet (handle e)) -> quiet (try_except m handle).
Proof.
  intros Hm Hf W h st w. rewrite exec_try_except. specialize (Hm W h st w).
  destruct (exec h m st w) as [[w1 t1] [st1 [e | a]]]; [| exact Hm].
  specialize (Hf e W h st1 w1).
  destruct (exec h (handle e) st1 w1) as [[w2 t2] r].
  unfold trace_of in *; simpl in *. rewrite store_searches_app, Hm, Hf. reflexivity.
Qed.

Lemma quiet_do (c : call) : (forall o, store_searches [(c, o)] = []) -> quiet (do c).
Proof. intros Hc W h st w. rewrite exec_do. apply Hc. Qed.

Create HintDb quiet discriminated.

Ltac prove_quiet :=
  repeat first
    [ solve [auto 1 with quiet nocore]
    | solve [apply quiet_pure; prove_pure]
    | match goal with
      | |- quiet (do ?c) => apply (quiet_do c); intro; reflexivity
      end
    | apply quiet_bind; [| intro]
    | apply quiet_try_except; [| intro]
    | match goal with
      | |- quiet (match ?x with _ => _ end) => destruct x
      | |- quiet (if ?b then _ else _) => destruct b
      end ].

Lemma quiet_init_table (self : HanaVectorStore) : quiet (_init_table self).
Proof.
  unfold _init_table, cursor_of, getitem. prove_quiet.
  apply quiet_pure, pure_gt_zero.
Qed.

#[local] Hint Resolve quiet_init_table : quiet.

Lemma quiet_connect (self : HanaVectorStore) : quiet (_connect self).
Proof.
  unfold _connect, str_or, environ_port, environ_get_default. prove_quiet.
Qed.

#[local] Hint Resolve quiet_connect : quiet.

Lemma quiet_init (conn : option connection) host port user password schema table dimension :
  quiet (HanaVectorStore__init__ conn host port user password schema table dimension).
Proof.
  unfold HanaVectorStore__init__. prove_quiet.
Qed.

#[local] Hint Resolve quiet_init : quiet.

Lemma quiet_get_vector_store : quiet get_vector_store.
Proof.
  unfold get_vector_store, environ_port, environ_get_default. prove_quiet.
Qed.

Lemma similarity_search_store_searches {W : Type} (h : handler W) st w self qv k f :
  match outcome_of (exec h (similarity_search self qv k f) st w) with
  | inr _ =>
      store_searches (trace_of (exec h (similarity_search self qv k f) st w))
      = [hana_search (hs_table_fqn self) (truthy_dict f) (search_params qv k f)]
  | inl _ => True
  end.
Proof.
  unfold similarity_search, search_params; cbv zeta.
  rewrite exec_reraise, exec_bind.
  destruct (hs_connection self) as [c |]; unfold cursor_of; exec_norm; [| exact I].
  answer h as [w1 [e | cur]]; [exact I |].
  destruct (truthy_dict f); exec_norm.
  - answer h as [w2 [e | []]]; [exact I |].
    answer h as [w3 [e | rows]]; [exact I |].
    match goal with |- context [exec h (for_each rows ?body) ?s ?w] =>
      destruct (exec_pure h (for_each rows body) s w ltac:(prove_pure)) as [[e | results] ->] end;
      exec_norm; [exact I |].
    answer h as [w4 [e | []]]; [exact I | reflexivity].
  - answer h as [w2 [e | []]]; [exact I |].
    answer h as [w3 [e | rows]]; [exact I |].
    match goal with |- context [exec h (for_each rows ?body) ?s ?w] =>
      destruct (exec_pure h (for_each rows body) s w ltac:(prove_pure)) as [[e | results] ->] end;
      exec_norm; [exact I |].
    answer h as [w4 [e | []]]; [exact I | reflexivity].
Qed.

Lemma store_similarity_search_store_searches {W : Type} (h : handler W) st w o qv k f :
  match outcome_of (exec h (store_similarity_search o qv k f) st w) with
  | inr _ =>
      store_searches (trace_of (exec h (store_similarity_search o qv k f) st w))
      = [search_of o qv k f]
  | inl _ => True
  end.
Proof.
  destruct o as [s | d]; cbn [store_similarity_search search_of].
  - apply similarity_search_store_searches.
  - exec_norm. destruct (h (duck_similarity_search d qv k f) w) as [w1 [e | results]];
      [exact I | reflexivity].
Qed.

(** ** [POST /search] *)

(** C3, as amended: [POST /search] makes no check on the query string.  In
    an environment that does not itself raise [HTTPException], the endpoint
    ends in a response, in [503] (no store) or in [500], never in a
    [400]-class failure; and whenever it ends in a response, for the empty
    query as for any other, it has had the query encoded as it is and has
    asked the store for one search with the request's [k] and filter. *)
Theorem vector_store_search_no_validation :
  forall (W : Type) (h : handler W),
    raises_no_http h ->
    forall st w request,
      let r := exec h (vector_store_search request) st w in
      match outcome_of r with
      | inr _ =>
          exists o emb v,
            In (embedder_encode emb [rq_query request]) (calls (trace_of r)) /\
            store_searches (trace_of r)
            = [search_of o v (rq_k request) (rq_filter_dict request)]
      | inl e =>
          e = HTTPException 503 "Vector store is not configured" \/
          exists detail, e = HTTPException 500 detail
      end.
Proof.
  intros W h Hno st w request. cbv zeta.
  assert (X : forall e w0, (exists c, snd (h c w0) = inl e) ->
              (if is_HTTPException e then e
               else HTTPException HTTP_500_INTERNAL_SERVER_ERROR (str_exn e))
              = HTTPException 500 (str_exn e)).
  { intros e w0 [c Hc]. rewrite (Hno c w0 e Hc). reflexivity. }
  unfold vector_store_search.
  rewrite exec_try_except, exec_bind.
  pose proof (quiet_get_vector_store W h st w) as Hq.
  destruct (get_vector_store_never_raises h st w) as [vs Hvs].
  destruct (exec h get_vector_store st w) as [[w1 t1] [st1 r1]].
  unfold outcome_of in Hvs; unfold trace_of in Hq; cbn [fst snd] in Hvs, Hq. subst r1.
  destruct vs as [o |]; exec_norm; [| left; reflexivity].
  answer h as [w2 [e | [emb |]]]; try (right; eexists; reflexivity).
  answer h as [w3 [e | [| v vs]]]; try (right; eexists; reflexivity).
  destruct (h time_time w3) as [w4 [e | t0]] eqn:Ht0; exec_norm.
  { rewrite exec_http_errors. exec_norm. rewrite (X e w3).
    - right; eexists; reflexivity.
    - exists time_time. rewrite Ht0. reflexivity. }
  pose proof (store_similarity_search_store_searches h st1 w4 o v (rq_k request)
                (rq_filter_dict request)) as Hs.
  destruct (exec h (store_similarity_search o v (rq_k request) (rq_filter_dict request)) st1 w4)
    as [[w5 t5] [st5 [e | results]]]; exec_norm; unfold outcome_of, trace_of in Hs;
    cbn [fst snd] in Hs.
  { right; eexists; reflexivity. }
  destruct (h time_time w5) as [w6 [e | t6]] eqn:Ht6; exec_norm.
  { rewrite exec_http_errors. exec_norm. rewrite (X e w5).
    - right; eexists; reflexivity.
    - exists time_time. rewrite Ht6. reflexivity. }
  exists o, emb, v. split.
  - unfold calls. rewrite !map_app. apply in_or_app. right. simpl. tauto.
  - rewrite !store_searches_app, Hq, Hs. reflexivity.
Qed.

(** ** The model environment *)

Lemma as_text_error v e : Model.as_text v = inl e -> driver_error e.
Proof. destruct v; simpl; intro H; inversion H; subst; eexists; eexists; reflexivity. Qed.

Lemma as_integer_error v e : Model.as_integer v = inl e -> driver_error e.
Proof.
  destruct v; simpl; try (intro H; inversion H; subst; eexists; eexists; reflexivity).
  destruct (Model.parse_int s); intro H; inversion H; subst; eexists; eexists; reflexivity.
Qed.

Lemma as_floats_error l e : Model.as_floats l = inl e -> driver_error e.
Proof.
  induction l as [| v l IH]; simpl; [discriminate |].
  destruct v; try (intro H; inversion H; subst; eexists; eexists; reflexivity);
    destruct (Model.as_floats l); intro H; inversion H; subst; apply IH; reflexivity.
Qed.

Lemma as_array_error v e : Model.as_array v = inl e -> driver_error e.
Proof.
  destruct v; simpl; try (intro H; inversion H; subst; eexists; eexists; reflexivity).
  apply as_floats_error.
Qed.

Lemma execute_error w sql params e : Model.execute w sql params = inl e -> driver_error e.
Proof.
  unfold Model.execute, Model.sql_error.
  destruct (negb _); [intro H; inversion H; eexists; eexists; reflexivity |].
  destruct sql;
    repeat match goal with
           | |- context [match ?x with _ => _ end] => destruct x eqn:?
           | |- context [if ?x then _ else _] => destruct x eqn:?
           end;
    intro H; inversion H; subst;
    try match goal with
        | H' : (if ?b then _ else _) = inl _ |- _ => destruct b; [| discriminate]
        end;
    eauto using as_text_error, as_array_error, as_integer_error;
    eexists; eexists; reflexivity.
Qed.

(** The model environment raises no [HTTPException]. *)
Lemma hana_raises_no_http : raises_no_http Model.hana.
Proof.
  intros c w e. destruct c; simpl.
  all: try discriminate.
  all: try (destruct (Model.w_settings_vector_store w); simpl; intro H; inversion H; reflexivity).
  - destruct (Model.parse_int s); simpl; intro H; inversion H; reflexivity.
  - destruct (_ && _)%bool; simpl; intro H; inversion H; reflexivity.
  - destruct (existsb _ _); simpl; intro H; inversion H; reflexivity.
  - destruct (Model.cursor_rows cur (Model.w_cursors w)); simpl; [| intro H; inversion H; reflexivity].
    destruct (Model.execute w sql params) as [e' | [[tables indexes] rows]] eqn:E; simpl;
      intro H; inversion H; subst.
    destruct (execute_error _ _ _ _ E) as [code [text ->]]. reflexivity.
  - destruct (Model.cursor_rows cur (Model.w_cursors w)) as [[| row rest] |]; simpl;
      intro H; inversion H; reflexivity.
  - destruct (Model.cursor_rows cur (Model.w_cursors w)); simpl; intro H; inversion H; reflexivity.
  - destruct (existsb _ _); simpl; intro H; inversion H; reflexivity.
Qed.

Lemma vector_store_search_no_validation_witness :
  raises_no_http Model.hana /\
  exists o emb v,
    In (embedder_encode emb [""])
       (calls (trace_of (exec Model.hana
          (vector_store_search {| rq_query := ""; rq_k := 5; rq_filter_dict := None |})
          [] Toy.configured))) /\
    store_searches (trace_of (exec Model.hana
          (vector_store_search {| rq_query := ""; rq_k := 5; rq_filter_dict := None |})
          [] Toy.configured))
    = [search_of o v 5 None].
Proof.
  split; [exact hana_raises_no_http |].
  exact (vector_store_search_no_validation Model.world Model.hana hana_raises_no_http
           [] Toy.configured {| rq_query := ""; rq_k := 5; rq_filter_dict := None |}).
Defined.

(** C3, as stated, fails: the empty query is answered with a response, and
    the store has been searched for it. *)
Lemma search_with_empty_query :
  outcome_of (exec Model.hana
    (vector_store_search {| rq_query := ""; rq_k := 5; rq_filter_dict := None |})
    [] Toy.configured)
  = inr {| rs_results :=
             [[("id", VStr "b"); ("text", VStr "second");
               ("metadata", VStr "{'source': 'b'}"); ("score", VFloat 1%Q)];
              [("id", VStr "a"); ("text", VStr "first");
               ("metadata", VStr "{'source': 'a'}"); ("score", VFloat 0%Q)]];
           rs_latency := 1%Q |} /\
  store_searches (trace_of (exec Model.hana
    (vector_store_search {| rq_query := ""; rq_k := 5; rq_filter_dict := None |})
    [] Toy.configured))
  = [hana_search "PUBLIC.VECTOR_STORE" false [VList [VFloat 0%Q; VFloat 1%Q]; VInt 5]].
Proof. split; reflexivity. Qed.

(** ** [GET /status] *)



(** *** Computations that swallow no exception *)











(** The three answers on the model environment: no store, a live
    connection, a closed connection. *)
Example status_not_configured :
  outcome_of (exec Model.hana vector_store_status [] Toy.fresh)
  = inr [("status", VStr "not_configured");
         ("message", VStr "Vector store is not configured")].
Proof. reflexivity. Qed.

Example status_connected :
  dict_lookup
    match outcome_of (exec Model.hana vector_store_status [] Toy.configured) with
    | inr body => body
    | inl _ => []
    end "status"
  = Some (VStr "connected").
Proof. reflexivity. Qed.

Example status_error :
  outcome_of (exec Model.hana vector_store_status [] Toy.disconnected)
  = inr [("status", VStr "error"); ("type", VStr "sap_hana");
         ("connection_ok", VBool false); ("host", VStr "hana.example");
         ("schema", VStr "PUBLIC"); ("table", VStr "VECTOR_STORE");
         ("message", VStr "Error connecting to SAP HANA Cloud")].
Proof. reflexivity. Qed.

(** * Further properties *)

(** ** A logic of calls and results *)

Lemma safe_ret {A : Type} (P : call -> Prop) (R : A -> Prop) (a : A) :
  R a -> safe P R (ret a).
Proof. intros Ha W h st w. split; [constructor | exact Ha]. Qed.

Lemma safe_raise {A : Type} (P : call -> Prop) (R : A -> Prop) (e : exn) :
  safe P R (@raise A e).
Proof. intros W h st w. split; [constructor | exact I]. Qed.

Lemma safe_do (P : call -> Prop) (c : call) (R : answer c -> Prop) :
  P c -> (forall a, R a) -> safe P R (do c).
Proof.
  intros Hc HR W h st w. rewrite exec_do. cbn [trace_of outcome_of fst snd calls map].
  split; [repeat constructor; exact Hc |].
  destruct (snd (h c w)); [exact I | apply HR].
Qed.

Lemma safe_bind {A B : Type} (P : call -> Prop) (R1 : A -> Prop) (R : B -> Prop)
    (m : M A) (f : A -> M B) :
  safe P R1 m -> (forall a, R1 a -> safe P R (f a)) -> safe P R (bind m f).
Proof.
  intros Hm Hf W h st w. rewrite exec_bind. specialize (Hm W h st w).
  destruct (exec h m st w) as [[w1 t1] [st1 [e | a]]];
    unfold trace_of, outcome_of in *; cbn [fst snd] in *; [split; [apply Hm | exact I] |].
  destruct Hm as [Ht Ha]. specialize (Hf a Ha W h st1 w1).
  destruct (exec h (f a) st1 w1) as [[w2 t2] r].
  unfold trace_of, outcome_of in *; cbn [fst snd] in *. destruct Hf as [Ht2 Hr].
  split; [| exact Hr]. unfold calls in *. rewrite map_app. apply Forall_app. split; assumption.
Qed.

Lemma safe_try_except {A : Type} (P : call -> Prop) (R : A -> Prop)
    (m : M A) (handle : exn -> M A) :
  safe P R m -> (forall e, safe P R (handle e)) -> safe P R (try_except m handle).
Proof.
  intros Hm Hf W h st w. rewrite exec_try_except. specialize (Hm W h st w).
  destruct (exec h m st w) as [[w1 t1] [st1 [e | a]]];
    unfold trace_of, outcome_of in *; cbn [fst snd] in *; [| exact Hm].
  destruct Hm as [Ht _]. specialize (Hf e W h st1 w1).
  destruct (exec h (handle e) st1 w1) as [[w2 t2] r].
  unfold trace_of, outcome_of in *; cbn [fst snd] in *. destruct Hf as [Ht2 Hr].
  split; [| exact Hr]. unfold calls in *. rewrite map_app. apply Forall_app. split; assumption.
Qed.

Lemma safe_weaken {A : Type} (P : call -> Prop) (R1 R : A -> Prop) (m : M A) :
  safe P R1 m -> (forall a, R1 a -> R a) -> safe P R m.
Proof.
  intros Hm HR W h st w. destruct (Hm W h st w) as [Ht Ha]. split; [exact Ht |].
  destruct (outcome_of (exec h m st w)); [exact I | apply HR, Ha].
Qed.

Lemma safe_calls {A : Type} (P Q : call -> Prop) (R : A -> Prop) (m : M A) :
  safe P R m -> (forall c, P c -> Q c) -> safe Q R m.
Proof.
  intros Hm HPQ W h st w. destruct (Hm W h st w) as [Ht Ha]. split; [| exact Ha].
  eapply Forall_impl; [exact HPQ | exact Ht].
Qed.

(** The result of the first computation does not matter. *)
Lemma safe_bind_any {A B : Type} (P : call -> Prop) (R : B -> Prop)
    (m : M A) (f : A -> M B) :
  safe P (fun _ => True) m -> (forall a, safe P R (f a)) -> safe P R (bind m f).
Proof.
  intros Hm Hf. apply (safe_bind P (fun _ => True)); [exact Hm | intros a _; apply Hf].
Qed.

Lemma safe_do_any (P : call -> Prop) (c : call) : P c -> safe P (fun _ => True) (do c).
Proof. intro Hc. apply safe_do; [exact Hc | intro; exact I]. Qed.

Lemma safe_pure {A : Type} (P : call -> Prop) (m : M A) :
  pure m -> safe P (fun _ => True) m.
Proof.
  intros Hm W h st w. destruct (exec_pure h m st w Hm) as [r ->].
  split; [constructor | destruct r; exact I].
Qed.

Lemma safe_str_or (P : call -> Prop) (a : option string) (b : M (option string)) :
  safe P (fun _ => True) b -> safe P (fun _ => True) (str_or a b).
Proof.
  intro Hb. unfold str_or. destruct (truthy_str a); [apply safe_ret; exact I | exact Hb].
Qed.

Ltac safe_call :=
  match goal with
  | |- safe ?P _ (do ?c) => apply (safe_do_any P c)
  end.

(** Walk through a program whose result does not matter; what is left are
    the conditions on its calls. *)
Ltac prove_safe_any :=
  repeat first
    [ apply safe_raise
    | apply safe_ret; exact I
    | solve [apply safe_pure; prove_pure]
    | safe_call
    | apply safe_str_or
    | apply safe_bind_any; [| intro]
    | apply safe_try_except; [| intro]
    | match goal with
      | |- safe _ _ (match ?x with _ => _ end) => destruct x eqn:?
      | |- safe _ _ (if ?b then _ else _) => destruct b eqn:?
      end ].

(** ** [HanaVectorStore._connect] *)

Lemma connect_safe (self : HanaVectorStore) :
  safe connects_with_credentials
       (fun s => (exists c, hs_connection s = Some c) /\
                 hs_table_fqn s = hs_table_fqn self /\
                 hs_dimension s = hs_dimension self)
       (_connect self).
Proof.
  unfold _connect.
  apply (safe_bind _ (fun s => hs_table_fqn s = hs_table_fqn self /\
                               hs_dimension s = hs_dimension self)).
  - destruct (negb _); [| apply safe_ret; split; reflexivity].
    unfold environ_port, environ_get_default.
    repeat (apply safe_bind_any; [prove_safe_any; exact I | intro]).
    apply safe_ret. split; reflexivity.
  - intros s [Hfqn Hdim].
    destruct (truthy_str (hs_host s) && truthy_str (hs_user s) && truthy_str (hs_password s))
      eqn:Hall; cbn [negb]; [| apply safe_raise].
    apply safe_try_except; [| intro; apply safe_raise].
    apply (safe_bind _ (fun _ => True)); [apply safe_do; [exact Hall | intro; exact I] |].
    intros c _. apply safe_ret. destruct s; cbn in *. repeat split; eauto.
Qed.

(** X2: [_connect] attempts a connection only with a non-empty host, user
    and password, whether they were given or came from the environment;
    and a store it returns holds a connection while its qualified table
    name and its dimension are those it had before, also when schema or
    table were taken from the environment. *)
Theorem connect_needs_credentials :
  forall (W : Type) (h : handler W) st w self,
    Forall connects_with_credentials (calls (trace_of (exec h (_connect self) st w))) /\
    match outcome_of (exec h (_connect self) st w) with
    | inr s => (exists c, hs_connection s = Some c) /\
               hs_table_fqn s = hs_table_fqn self /\
               hs_dimension s = hs_dimension self
    | inl _ => True
    end.
Proof. intros W h st w self. exact (connect_safe self W h st w). Qed.

(** X3: with a non-empty host, user and password, [_connect] does not look
    at the environment: its one call is the connection attempt with the
    parameters as they are (the port also when it is 0); the store it
    returns is the same store with the new connection, and a failure of the
    attempt is raised as it is. *)
Theorem connect_with_explicit_parameters :
  forall (W : Type) (h : handler W) st w self,
    truthy_str (hs_host self) && truthy_str (hs_user self)
      && truthy_str (hs_password self) = true ->
    exec h (_connect self) st w
    = (fst (h (dbapi_connect (hs_host self) (hs_port self) (hs_user self)
                 (hs_password self)) w),
       [(dbapi_connect (hs_host self) (hs_port self) (hs_user self) (hs_password self),
         failure (snd (h (dbapi_connect (hs_host self) (hs_port self) (hs_user self)
                            (hs_password self)) w)))],
       (st,
        match snd (h (dbapi_connect (hs_host self) (hs_port self) (hs_user self)
                        (hs_password self)) w) with
        | inl e => inl e
        | inr c => inr (set_connection self (Some c))
        end)).
Proof.
  intros W h st w self Hall. unfold _connect. rewrite Hall. cbn [negb]. exec_norm.
  rewrite Hall. cbn [negb]. exec_norm.
  destruct (h (dbapi_connect (hs_host self) (hs_port self) (hs_user self)
                 (hs_password self)) w) as [w1 [e | c]]; exec_norm; reflexivity.
Qed.

Lemma connect_with_explicit_parameters_witness :
  truthy_str (hs_host Toy.store) && truthy_str (hs_user Toy.store)
    && truthy_str (hs_password Toy.store) = true /\
  outcome_of (exec Model.hana (_connect Toy.store) [] Toy.fresh)
  = inr (set_connection Toy.store (Some O)).
Proof.
  split; [reflexivity |].
  rewrite (connect_with_explicit_parameters Model.world Model.hana [] Toy.fresh Toy.store
             eq_refl).
  reflexivity.
Defined.

(** ** [HanaVectorStore.__init__] and [SAPHanaRM.__init__] *)

Lemma init_table_safe (P : call -> Prop) (self : HanaVectorStore) :
  (forall c, provisioning_call c -> P c) ->
  safe P (fun _ => True) (_init_table self).
Proof.
  intro HP. apply (safe_calls provisioning_call); [| exact HP].
  unfold _init_table, cursor_of, getitem. prove_safe_any; try exact I.
  apply safe_pure, pure_gt_zero.
Qed.

Lemma hana_init_given_connection (c : connection) (host : option string) (port : Z)
    (user password : option string) (schema table : string) (dimension : Z) :
  safe provisioning_call
       (fun s => s = {| hs_connection := Some c; hs_host := host; hs_port := port;
                        hs_user := user; hs_password := password;
                        hs_schema := schema; hs_table := table;
                        hs_dimension := dimension;
                        hs_table_fqn := schema ++ "." ++ table |})
       (HanaVectorStore__init__ (Some c) host port user password schema table dimension).
Proof.
  unfold HanaVectorStore__init__.
  apply safe_bind_any; [safe_call; exact I | intro flag].
  destruct flag; cbn [negb]; [| apply safe_raise].
  apply (safe_bind _ (fun s => s = {| hs_connection := Some c; hs_host := host;
                                      hs_port := port; hs_user := user;
                                      hs_password := password; hs_schema := schema;
                                      hs_table := table; hs_dimension := dimension;
                                      hs_table_fqn := schema ++ "." ++ table |}));
    [apply safe_ret; reflexivity | intros s ->].
  apply safe_bind_any; [apply init_table_safe; auto | intro].
  apply safe_ret; reflexivity.
Qed.

(** X1: given a connection, the constructor of [HanaVectorStore] neither
    connects nor reads the environment: its calls are the test of the
    hdbcli flag and the cursor operations of schema provisioning.  The
    store it returns has the given connection and parameters and the
    qualified name [schema.table].  Without the hdbcli package it raises
    [ImportError] right after the test of the flag, before any other
    call. *)
Theorem hana_init_with_connection :
  forall (W : Type) (h : handler W) st w c host port user password schema table dimension,
    let r := exec h (HanaVectorStore__init__ (Some c) host port user password
                       schema table dimension) st w in
    Forall provisioning_call (calls (trace_of r)) /\
    match outcome_of r with
    | inr s =>
        s = {| hs_connection := Some c; hs_host := host; hs_port := port;
               hs_user := user; hs_password := password;
               hs_schema := schema; hs_table := table; hs_dimension := dimension;
               hs_table_fqn := schema ++ "." ++ table |}
    | inl _ => True
    end /\
    (snd (h has_hdbcli w) = inr false ->
     trace_of r = [(has_hdbcli, None)] /\
     outcome_of r
     = inl (ImportError
         "The 'hdbcli' package is required to use the SAP HANA Cloud Vector Store. Install it with 'pip install hdbcli'.")).
Proof.
  intros W h st w c host port user password schema table dimension. cbv zeta.
  destruct (hana_init_given_connection c host port user password schema table dimension
              W h st w) as [Hcalls Hout].
  split; [exact Hcalls | split; [exact Hout |]].
  intro Hflag. unfold HanaVectorStore__init__. exec_norm.
  destruct (h has_hdbcli w) as [w1 r]. cbn [snd] in Hflag. subst r. exec_norm.
  split; reflexivity.
Qed.

Lemma hana_init_safe (host : option string) port user password schema table dimension :
  safe connects_with_credentials
       (fun s => (exists c, hs_connection s = Some c) /\
                 hs_table_fqn s = schema ++ "." ++ table)
       (HanaVectorStore__init__ None host port user password schema table dimension).
Proof.
  unfold HanaVectorStore__init__.
  apply safe_bind_any; [safe_call; exact I | intro flag].
  destruct flag; cbn [negb]; [| apply safe_raise].
  apply (safe_bind _ (fun s => (exists c, hs_connection s = Some c) /\
                               hs_table_fqn s = schema ++ "." ++ table)).
  - eapply safe_weaken; [apply connect_safe |].
    cbn. intros s [Hc [Hfqn _]]. split; assumption.
  - intros s Hs. apply safe_bind_any; [| intro; apply safe_ret; exact Hs].
    apply init_table_safe. intros c Hc. destruct c; try exact I; contradiction.
Qed.

(** X4: the constructor of [SAPHanaRM] keeps the given [k] as the default.
    Given a vector store it uses that store and makes no call; without one
    it builds a store, attempting a connection only with a non-empty host,
    user and password, and the module it returns then holds a connected
    store for [schema.table]. *)
Theorem rm_init_store :
  forall (W : Type) (h : handler W) st w self_id k vector_store
         host port user password schema table dimension,
    let r := exec h (SAPHanaRM__init__ self_id k vector_store host port user password
                       schema table dimension) st w in
    Forall connects_with_credentials (calls (trace_of r)) /\
    match vector_store with
    | Some vs =>
        r = (w, [], (st, inr {| rm_id := self_id; rm_k := k; rm_vector_store := vs |}))
    | None =>
        match outcome_of r with
        | inr rm =>
            rm_id rm = self_id /\ rm_k rm = k /\
            (exists c, hs_connection (rm_vector_store rm) = Some c) /\
            hs_table_fqn (rm_vector_store rm) = schema ++ "." ++ table
        | inl _ => True
        end
    end.
Proof.
  intros W h st w self_id k vector_store host port user password schema table dimension.
  cbv zeta. destruct vector_store as [vs |].
  - unfold SAPHanaRM__init__. exec_norm. split; [constructor | reflexivity].
  - assert (Hsafe : safe connects_with_credentials
              (fun rm => rm_id rm = self_id /\ rm_k rm = k /\
                         (exists c, hs_connection (rm_vector_store rm) = Some c) /\
                         hs_table_fqn (rm_vector_store rm) = schema ++ "." ++ table)
              (SAPHanaRM__init__ self_id k None host port user password
                 schema table dimension)).
    { unfold SAPHanaRM__init__.
      eapply safe_bind; [apply hana_init_safe |].
      cbn. intros s [Hc Hfqn]. apply safe_ret. cbn. auto. }
    exact (Hsafe W h st w).
Qed.

(** ** Loops without calls *)

Lemma for_each_collect {A B : Type} (body : A -> M B) (f : A -> exn + B) :
  (forall x st, body x st = Ret (st, f x)) ->
  forall l st, for_each l body st = Ret (st, collect f l).
Proof.
  intros Hbody l; induction l as [| x l IH]; intro st; [reflexivity |].
  cbn [for_each collect]. unfold bind at 1. rewrite Hbody. cbn [pbind].
  destruct (f x) as [e | y]; [reflexivity |].
  unfold bind at 1. rewrite IH. cbn [pbind].
  destruct (collect f l); reflexivity.
Qed.

Lemma exec_for_each_collect {W A B : Type} (h : handler W) (body : A -> M B)
    (f : A -> exn + B) (l : list A) st w :
  (forall x st, body x st = Ret (st, f x)) ->
  exec h (for_each l body) st w = (w, [], (st, collect f l)).
Proof. intro Hbody. unfold exec. rewrite (for_each_collect body f Hbody). reflexivity. Qed.

Lemma collect_Forall {A B : Type} (f : A -> exn + B) (P : B -> Prop) :
  (forall x y, f x = inr y -> P y) ->
  forall l ys, collect f l = inr ys -> Forall P ys.
Proof.
  intros Hf l; induction l as [| x l IH]; intros ys; cbn [collect].
  - intro H; inversion H; constructor.
  - destruct (f x) as [e | y] eqn:Hx; [discriminate |].
    destruct (collect f l) as [e | ys'] eqn:Hl; [discriminate |].
    intro H; inversion H; subst. constructor; [exact (Hf x y Hx) | apply IH; reflexivity].
Qed.

Lemma row_body (row : list value) (st : lru) :
  (id <- getitem row 0 ;;
   text <- getitem row 1 ;;
   metadata <- getitem row 2 ;;
   score <- getitem row 3 ;;
   ret [("id", id); ("text", text); ("metadata", metadata); ("score", score)]) st
  = Ret (st, row_dict row).
Proof.
  unfold row_dict, bind, getitem.
  destruct (nth_error row 0); [| reflexivity].
  destruct (nth_error row 1); [| reflexivity].
  destruct (nth_error row 2); [| reflexivity].
  destruct (nth_error row 3); reflexivity.
Qed.

Lemma row_dict_keys (row : list value) (d : dict) :
  row_dict row = inr d -> dict_keys d = ["id"; "text"; "metadata"; "score"].
Proof.
  unfold row_dict.
  destruct (nth_error row 0); [| discriminate].
  destruct (nth_error row 1); [| discriminate].
  destruct (nth_error row 2); [| discriminate].
  destruct (nth_error row 3); [| discriminate].
  intro H; inversion H; reflexivity.
Qed.

Lemma example_body (result : dict) (st : lru) :
  dict_keys result = ["id"; "text"; "metadata"; "score"] ->
  (id <- dict_getitem result "id" ;;
   long_text <- dict_getitem result "text" ;;
   score <- dict_getitem result "score" ;;
   metadata <- dict_getitem result "metadata" ;;
   ret [("id", id); ("long_text", long_text); ("score", score); ("metadata", metadata)]) st
  = Ret (st, inr (example_of result)).
Proof.
  destruct result as [| [k1 v1] [| [k2 v2] [| [k3 v3] [| [k4 v4] [| ? ?]]]]]; try discriminate.
  cbn [dict_keys map fst]. intro H; inversion H; subst. reflexivity.
Qed.

Lemma for_each_examples (results : list dict) (st : lru) :
  Forall (fun d => dict_keys d = ["id"; "text"; "metadata"; "score"]) results ->
  for_each results (fun result =>
    id <- dict_getitem result "id" ;;
    long_text <- dict_getitem result "text" ;;
    score <- dict_getitem result "score" ;;
    metadata <- dict_getitem result "metadata" ;;
    ret [("id", id); ("long_text", long_text); ("score", score); ("metadata", metadata)]) st
  = Ret (st, inr (map example_of results)).
Proof.
  induction 1 as [| d results Hd _ IH]; [reflexivity |].
  cbn [for_each map]. unfold bind at 1. rewrite (example_body d st Hd). cbn [pbind].
  unfold bind at 1. rewrite IH. reflexivity.
Qed.

(** ** More on [similarity_search] *)

Ltac not_closed Hin :=
  intro; apply Hin;
  repeat (apply Forall_cons; [first [right; exact I | left; discriminate] |]);
  apply Forall_nil.

(** The runs of [similarity_search], by their outcome. *)
Lemma similarity_search_runs {W : Type} (h : handler W) st w self qv k f :
  let r := exec h (similarity_search self qv k f) st w in
  cache_of r = st /\
  match outcome_of r with
  | inr results =>
      Forall (fun d => dict_keys d = ["id"; "text"; "metadata"; "score"]) results /\
      exists c cur,
        hs_connection self = Some c /\
        trace_of r
        = [(connection_cursor c, None);
           (cursor_execute cur (search_query (hs_table_fqn self) (truthy_dict f))
              (search_params qv k f), None);
           (cursor_fetchall cur, None);
           (cursor_close cur, None)]
  | inl e => forall cur, ~ In (cursor_close cur, None) (trace_of r)
  end.
Proof.
  unfold similarity_search, search_params; cbv zeta.
  rewrite exec_reraise, exec_bind.
  destruct (hs_connection self) as [c |]; unfold cursor_of; exec_norm;
    [| split; [reflexivity | intros cur []]].
  answer h as [w1 [e | cur]];
    [split; [reflexivity | intros cur' [H | []]; discriminate] |].
  assert (Hin : forall (t : list event) cur',
             Forall (fun ev => snd ev <> None \/
                               match fst ev with cursor_close _ => False | _ => True end) t ->
             ~ In (cursor_close cur', None) t).
  { intros t cur' Ht Hin. rewrite Forall_forall in Ht. destruct (Ht _ Hin) as [H | H].
    - apply H; reflexivity.
    - exact H. }
  destruct (truthy_dict f); exec_norm.
  - answer h as [w2 [e | []]];
      [split; [reflexivity | not_closed Hin] |].
    answer h as [w3 [e | rows]];
      [split; [reflexivity | not_closed Hin] |].
    match goal with |- context [exec h (for_each rows ?body) ?s ?w'] =>
      rewrite (exec_for_each_collect h body row_dict rows s w' row_body) end.
    match goal with |- context [match ?x with inl _ => _ | inr _ => _ end] =>
      destruct x as [e | results] eqn:Hrows end; exec_norm;
      [split; [reflexivity | not_closed Hin] |].
    answer h as [w4 [e | []]];
      [split; [reflexivity | not_closed Hin] |].
    split; [reflexivity | split].
    + exact (collect_Forall row_dict _ row_dict_keys rows results Hrows).
    + exists c, cur. split; reflexivity.
  - answer h as [w2 [e | []]];
      [split; [reflexivity | not_closed Hin] |].
    answer h as [w3 [e | rows]];
      [split; [reflexivity | not_closed Hin] |].
    match goal with |- context [exec h (for_each rows ?body) ?s ?w'] =>
      rewrite (exec_for_each_collect h body row_dict rows s w' row_body) end.
    match goal with |- context [match ?x with inl _ => _ | inr _ => _ end] =>
      destruct x as [e | results] eqn:Hrows end; exec_norm;
      [split; [reflexivity | not_closed Hin] |].
    answer h as [w4 [e | []]];
      [split; [reflexivity | not_closed Hin] |].
    split; [reflexivity | split].
    + exact (collect_Forall row_dict _ row_dict_keys rows results Hrows).
    + exists c, cur. split; reflexivity.
Qed.

(** X6: an empty filter dict is no filter.  [similarity_search] with [{}]
    runs exactly as with [None]; and without a filter every statement that
    reaches the database is the search without a [WHERE] clause, with the
    query vector bound to [COSINE_SIMILARITY] and [k] to [LIMIT]. *)
Theorem similarity_search_empty_filter :
  forall (W : Type) (h : handler W) st w self qv k,
    exec h (similarity_search self qv k (Some [])) st w
    = exec h (similarity_search self qv k None) st w /\
    Forall (fun sp =>
              fst sp = search_query (hs_table_fqn self) false /\
              binding (fst sp) (snd sp)
              = [(ph_cosine_similarity, of_vector qv); (ph_limit, VInt k)])
           (executed (trace_of (exec h (similarity_search self qv k None) st w))).
Proof.
  intros W h st w self qv k. split; [reflexivity |].
  pose proof (similarity_search_executed h st w self qv k None) as H.
  cbv zeta in H. destruct H as [_ H].
  destruct (outcome_of (exec h (similarity_search self qv k None) st w));
    [destruct H as [-> | ->] | rewrite H]; repeat constructor.
Qed.

(** X7: when [similarity_search] returns, every result is a dict with
    exactly the keys [id], [text], [metadata] and [score], and the calls
    were: open a cursor, execute the search, fetch all rows, close the
    cursor, none of which failed.  When it raises, the cursor, if one was
    opened, has not been closed; and in either case the embedding cache is
    left as it was. *)
Theorem similarity_search_results_and_cursor :
  forall (W : Type) (h : handler W) st w self qv k f,
    let r := exec h (similarity_search self qv k f) st w in
    cache_of r = st /\
    match outcome_of r with
    | inr results =>
        Forall (fun d => dict_keys d = ["id"; "text"; "metadata"; "score"]) results /\
        exists c cur,
          hs_connection self = Some c /\
          trace_of r
          = [(connection_cursor c, None);
             (cursor_execute cur (search_query (hs_table_fqn self) (truthy_dict f))
                (search_params qv k f), None);
             (cursor_fetchall cur, None);
             (cursor_close cur, None)]
    | inl e => forall cur, ~ In (cursor_close cur, None) (trace_of r)
    end.
Proof. intros W h st w self qv k f. exact (similarity_search_runs h st w self qv k f). Qed.

(** ** More on [forward] *)

Lemma exec_forward {W : Type} (h : handler W) st w self query k w1 t1 st1 qv :
  exec h (_get_embedding self query) st w = (w1, t1, (st1, inr qv)) ->
  exec h (forward self query k) st w
  = match exec h (similarity_search (rm_vector_store self) qv (k_or k (rm_k self)) None)
            st1 w1 with
    | (w2, t2, (st2, inr results)) =>
        (w2, (t1 ++ t2)%list, (st2, inr (map example_of results)))
    | (w2, t2, (st2, inl e)) => (w2, (t1 ++ t2)%list, (st2, inl e))
    end.
Proof.
  intro Hemb. unfold forward. rewrite exec_bind, Hemb, exec_bind.
  pose proof (similarity_search_runs h st1 w1 (rm_vector_store self) qv
                (k_or k (rm_k self)) None) as Hs.
  cbv zeta in Hs. destruct Hs as [_ Hs].
  destruct (exec h (similarity_search (rm_vector_store self) qv (k_or k (rm_k self)) None)
              st1 w1) as [[w2 t2] [st2 [e | results]]]; [reflexivity |].
  unfold outcome_of in Hs; cbn [fst snd] in Hs. destruct Hs as [Hkeys _].
  unfold exec at 1. rewrite (for_each_examples results st2 Hkeys).
  cbn [run]. rewrite app_nil_r. reflexivity.
Qed.

(** X8: [forward] is the embedding of the query, then the search with
    [k or self.k] and no filter, then one example per result in the order
    of the results, with [id], [long_text], [score] and [metadata] taken
    from the result's [id], [text], [score] and [metadata].  Once the
    embedding is there, [forward] fails exactly when the search fails, with
    the exception of the search: building the examples never fails. *)
Theorem forward_composes :
  forall (W : Type) (h : handler W) st w self query k w1 t1 st1 qv,
    exec h (_get_embedding self query) st w = (w1, t1, (st1, inr qv)) ->
    exec h (forward self query k) st w
    = match exec h (similarity_search (rm_vector_store self) qv (k_or k (rm_k self)) None)
              st1 w1 with
      | (w2, t2, (st2, inr results)) =>
          (w2, (t1 ++ t2)%list, (st2, inr (map example_of results)))
      | (w2, t2, (st2, inl e)) => (w2, (t1 ++ t2)%list, (st2, inl e))
      end.
Proof. intros W h st w self query k w1 t1 st1 qv. apply exec_forward. Qed.

Lemma forward_composes_witness :
  exec Model.hana (_get_embedding Toy.rm "hello") [] Toy.provisioned
  = (Toy.provisioned,
     [(settings_embedder, None); (embedder_encode 0%nat ["hello"], None)],
     ([((7%nat, "hello"), [1%Q; 0%Q])], inr [1%Q; 0%Q])) /\
  outcome_of (exec Model.hana (forward Toy.rm "hello" (Some 1)) [] Toy.provisioned)
  = inr [[("id", VStr "a"); ("long_text", VStr "first");
          ("score", VFloat 1%Q); ("metadata", VStr "{'source': 'a'}")]].
Proof.
  split; [reflexivity |].
  rewrite (forward_composes Model.world Model.hana [] Toy.provisioned Toy.rm "hello" (Some 1)
             Toy.provisioned
             [(settings_embedder, None); (embedder_encode 0%nat ["hello"], None)]
             [((7%nat, "hello"), [1%Q; 0%Q])] [1%Q; 0%Q] eq_refl).
  reflexivity.
Defined.

(** X9: the embedding of the query stays cached whatever becomes of the
    search: when [_get_embedding] has returned a vector for the query,
    the cache after [forward] is the cache after [_get_embedding] and holds
    that vector for the query, also when [forward] raises. *)
Theorem forward_keeps_embedding :
  forall (W : Type) (h : handler W) st w self query k w1 t1 st1 qv,
    exec h (_get_embedding self query) st w = (w1, t1, (st1, inr qv)) ->
    cache_of (exec h (forward self query k) st w) = st1 /\
    lru_find (rm_id self, query) (cache_of (exec h (forward self query k) st w)) = Some qv.
Proof.
  intros W h st w self query k w1 t1 st1 qv Hemb.
  assert (Hcache : cache_of (exec h (forward self query k) st w) = st1).
  { rewrite (exec_forward h st w self query k w1 t1 st1 qv Hemb).
    pose proof (similarity_search_runs h st1 w1 (rm_vector_store self) qv
                  (k_or k (rm_k self)) None) as Hs.
    cbv zeta in Hs. destruct Hs as [Hs _].
    destruct (exec h (similarity_search (rm_vector_store self) qv (k_or k (rm_k self)) None)
                st1 w1) as [[w2 t2] [st2 [e | results]]]; exact Hs. }
  split; [exact Hcache |]. rewrite Hcache.
  destruct (lru_find (rm_id self, query) st) as [v0 |] eqn:Hfind.
  - rewrite (get_embedding_hit h st w self query v0 Hfind) in Hemb.
    injection Hemb as _ _ Hst Hv. subst. apply lru_find_touch.
  - rewrite (get_embedding_miss h st w self query Hfind) in Hemb.
    destruct (exec h (_get_embedding_body self query) st w) as [[w2 t2] [st2 [e | v2]]];
      [discriminate |].
    injection Hemb as _ _ Hst Hv. subst. apply lru_find_store. exact Hfind.
Qed.

Lemma forward_keeps_embedding_witness :
  exec Model.hana (_get_embedding Toy.rm "hello") [] Toy.fresh
  = (Toy.fresh,
     [(settings_embedder, None); (embedder_encode 0%nat ["hello"], None)],
     ([((7%nat, "hello"), [1%Q; 0%Q])], inr [1%Q; 0%Q])) /\
  lru_find (7%nat, "hello")
    (cache_of (exec Model.hana (forward Toy.rm "hello" None) [] Toy.fresh))
  = Some [1%Q; 0%Q].
Proof.
  split; [reflexivity |].
  exact (proj2 (forward_keeps_embedding Model.world Model.hana [] Toy.fresh Toy.rm "hello"
                  None Toy.fresh
                  [(settings_embedder, None); (embedder_encode 0%nat ["hello"], None)]
                  [((7%nat, "hello"), [1%Q; 0%Q])] [1%Q; 0%Q] eq_refl)).
Defined.

(** ** [SAPHanaRM.__del__] *)

(** X10: [__del__] never raises and leaves the cache alone.  Its only call
    is the driver's [close] on the store's connection, if the store holds
    one; a failure of that call is dropped. *)
Theorem del_never_raises :
  forall (W : Type) (h : handler W) st w self,
    let r := exec h (SAPHanaRM__del__ self) st w in
    outcome_of r = inr tt /\
    cache_of r = st /\
    calls (trace_of r)
    = match hs_connection (rm_vector_store self) with
      | Some c => [connection_close c]
      | None => []
      end.
Proof.
  intros W h st w self. cbv zeta. unfold SAPHanaRM__del__, close.
  destruct (hs_connection (rm_vector_store self)) as [c |]; exec_norm.
  - answer h as [w1 [e | []]]; repeat split.
  - repeat split.
Qed.

(** ** More on [add_documents] *)

(** The loop of [add_documents], event by event: the records are accepted
    one by one until one is refused. *)
Lemma upsert_loop_trace {W : Type} (h : handler W) (cur : cursor) (fqn : string)
    (pairs : list (dict * vector)) st w :
  let r := exec h (for_each pairs (fun de =>
             let '(doc, emb) := de in
             let doc_id := dict_get doc "id" VNone in
             let text := dict_get doc "text" (VStr "") in
             let metadata := dict_get doc "metadata" (VStr "{}") in
             do (cursor_execute cur (insert_query fqn)
                   [doc_id; text; of_vector emb; metadata]))) st w in
  cache_of r = st /\
  match outcome_of r with
  | inr _ => trace_of r = map (accepted cur) (map (upsert_of fqn) pairs)
  | inl e =>
      exists before u after,
        map (upsert_of fqn) pairs = (before ++ u :: after)%list /\
        trace_of r
        = (map (accepted cur) before ++ [(cursor_execute cur (fst u) (snd u), Some e)])%list
  end.
Proof.
  cbv zeta. revert w. induction pairs as [| [doc emb] pairs IH]; intro w.
  - cbn [for_each]. exec_norm. split; reflexivity.
  - cbn [for_each]. exec_norm.
    answer h as [w1 [e | []]].
    + split; [reflexivity |].
      exists [], (upsert_of fqn (doc, emb)), (map (upsert_of fqn) pairs). split; reflexivity.
    + specialize (IH w1).
      match type of IH with context [exec h ?m st w1] =>
        destruct (exec h m st w1) as [[w2 t2] [st2 [e | ys]]] end;
        exec_norm; unfold cache_of, outcome_of, trace_of in IH; cbn [fst snd] in IH;
        destruct IH as [-> IH]; (split; [reflexivity |]).
      * destruct IH as [before [u [after [Hsplit ->]]]].
        exists (upsert_of fqn (doc, emb) :: before), u, after.
        cbn [map app]. rewrite Hsplit. split; reflexivity.
      * rewrite app_nil_r, IH. reflexivity.
Qed.

(** X5: with as many documents as embeddings and a store that holds a
    connection, [add_documents] opens a cursor, sends one [UPSERT] per
    record in order, commits, and closes the cursor; it stops at the first
    call that fails and raises its exception.  So the commit is only
    reached after the store has accepted every record, the cursor is only
    closed after a commit, and after a failure nothing is committed, rolled
    back or closed. *)
Theorem add_documents_runs :
  forall (W : Type) (h : handler W) st w self c documents embeddings,
    hs_connection self = Some c ->
    List.length documents = List.length embeddings ->
    let r := exec h (add_documents self documents embeddings) st w in
    let upserts := map (upsert_of (hs_table_fqn self)) (combine documents embeddings) in
    (exists e,
       outcome_of r = inl e /\ trace_of r = [(connection_cursor c, Some e)]) \/
    (exists cur e before u after,
       outcome_of r = inl e /\ upserts = (before ++ u :: after)%list /\
       trace_of r
       = ((connection_cursor c, None) :: map (accepted cur) before
            ++ [(cursor_execute cur (fst u) (snd u), Some e)])%list) \/
    (exists cur e,
       outcome_of r = inl e /\
       trace_of r
       = ((connection_cursor c, None) :: map (accepted cur) upserts
            ++ [(connection_commit c, Some e)])%list) \/
    (exists cur e,
       outcome_of r = inl e /\
       trace_of r
       = ((connection_cursor c, None) :: map (accepted cur) upserts
            ++ [(connection_commit c, None); (cursor_close cur, Some e)])%list) \/
    (exists cur,
       outcome_of r = inr tt /\
       trace_of r
       = ((connection_cursor c, None) :: map (accepted cur) upserts
            ++ [(connection_commit c, None); (cursor_close cur, None)])%list).
Proof.
  intros W h st w self c documents embeddings Hconn Hlen. cbv zeta.
  unfold add_documents. rewrite Hlen, Nat.eqb_refl, Hconn. cbn [negb].
  rewrite exec_reraise, exec_bind. unfold cursor_of. exec_norm.
  answer h as [w1 [e | cur]]; [left; exists e; split; reflexivity | right].
  pose proof (upsert_loop_trace h cur (hs_table_fqn self) (combine documents embeddings) st w1)
    as Hloop. cbv zeta in Hloop.
  match type of Hloop with context [exec h ?m st w1] =>
    destruct (exec h m st w1) as [[w2 t2] [st2 [e | ys]]] end;
    unfold cache_of, outcome_of, trace_of in Hloop; cbn [fst snd] in Hloop;
    destruct Hloop as [-> Hloop]; exec_norm.
  - left. destruct Hloop as [before [u [after [Hsplit ->]]]].
    exists cur, e, before, u, after. repeat split. exact Hsplit.
  - right. subst t2. answer h as [w3 [e | []]].
    + left. exists cur, e. split; reflexivity.
    + right. answer h as [w4 [e | []]].
      * left. exists cur, e. split; [reflexivity |].
        cbn [app]. rewrite ?app_nil_r. reflexivity.
      * right. exists cur. split; [reflexivity |].
        cbn [app]. rewrite ?app_nil_r. reflexivity.
Qed.

Lemma add_documents_runs_witness :
  hs_connection Toy.store = Some O /\
  List.length [[("id", VStr "c")]] = List.length [[1%Q; 1%Q]] /\
  outcome_of (exec Model.hana (add_documents Toy.store [[("id", VStr "c")]] [[1%Q; 1%Q]])
                [] Toy.provisioned)
  = inr tt.
Proof.
  split; [reflexivity | split; [reflexivity |]].
  destruct (add_documents_runs Model.world Model.hana [] Toy.provisioned Toy.store O
              [[("id", VStr "c")]] [[1%Q; 1%Q]] eq_refl eq_refl)
    as [[e [H _]] | [[cur [e [b [u [a [H _]]]]]] | [[cur [e [H _]]] | [[cur [e [H _]]] | [cur [H _]]]]]];
    try (vm_compute in H; discriminate H).
  exact H.
Defined.

(** ** More on the embedding cache *)

Lemma lru_key_eqb_eq (a b : lru_key) : lru_key_eqb a b = true <-> a = b.
Proof.
  destruct a as [i s], b as [j t]. unfold lru_key_eqb; cbn [fst snd].
  rewrite andb_true_iff, Nat.eqb_eq, String.eqb_eq. split.
  - intros [-> ->]; reflexivity.
  - intro H; inversion H; split; reflexivity.
Qed.

Lemma lru_key_eqb_neq (a b : lru_key) : a <> b -> lru_key_eqb a b = false.
Proof.
  intro H. destruct (lru_key_eqb a b) eqn:E; [| reflexivity].
  apply lru_key_eqb_eq in E. contradiction.
Qed.

Lemma lru_find_remove_other (key key' : lru_key) (st : lru) :
  key' <> key -> lru_find key' (lru_remove key st) = lru_find key' st.
Proof.
  intro Hne. induction st as [| [k v] st IH]; [reflexivity |]. cbn [lru_remove lru_find].
  destruct (lru_key_eqb key k) eqn:E.
  - apply lru_key_eqb_eq in E. subst k. rewrite (lru_key_eqb_neq key' key Hne). exact IH.
  - cbn [lru_find]. rewrite IH. reflexivity.
Qed.

Lemma lru_remove_length (key : lru_key) (st : lru) :
  (List.length (lru_remove key st) <= List.length st)%nat.
Proof.
  induction st as [| [k v] st IH]; [apply Nat.le_refl |]. cbn [lru_remove].
  destruct (lru_key_eqb key k); cbn [List.length]; lia.
Qed.

Lemma lru_remove_length_found (key : lru_key) (st : lru) (v : vector) :
  lru_find key st = Some v -> (List.length (lru_remove key st) < List.length st)%nat.
Proof.
  induction st as [| [k v'] st IH]; [discriminate |]. cbn [lru_find lru_remove].
  destruct (lru_key_eqb key k).
  - intros _. pose proof (lru_remove_length key st). cbn [List.length]. lia.
  - intro H. specialize (IH H). cbn [List.length]. lia.
Qed.

Lemma lru_find_app (key : lru_key) (st0 st1 : lru) (v : vector) :
  lru_find key st0 = Some v -> lru_find key (st0 ++ st1)%list = Some v.
Proof.
  induction st0 as [| [k v'] st0 IH]; [discriminate |]. cbn [lru_find app].
  destruct (lru_key_eqb key k); [trivial | exact IH].
Qed.

Lemma lru_find_removelast (key : lru_key) (st : lru) (v : vector) :
  lru_find key (removelast st) = Some v -> lru_find key st = Some v.
Proof.
  destruct st as [| x st] using rev_ind; [trivial |].
  rewrite removelast_last. apply lru_find_app.
Qed.

Lemma removelast_length {A : Type} (l : list A) :
  l <> [] -> S (List.length (removelast l)) = List.length l.
Proof.
  destruct l as [| x l] using rev_ind; [contradiction |]. intros _.
  rewrite removelast_last, length_app. cbn. lia.
Qed.

(** The cache after a call of [_get_embedding]: the entry moved to the
    front on a hit, the result stored on a miss that returns, the same
    cache on a miss that raises. *)
Lemma cache_after_get_embedding {W : Type} (h : handler W) st w self text :
  let st1 := cache_of (exec h (_get_embedding self text) st w) in
  (exists v, lru_find (rm_id self, text) st = Some v /\
             st1 = lru_touch (rm_id self, text) v st) \/
  (lru_find (rm_id self, text) st = None /\
   ((exists v, st1 = lru_store maxsize (rm_id self, text) v st) \/ st1 = st)).
Proof.
  cbv zeta. destruct (lru_find (rm_id self, text) st) as [v |] eqn:Hfind.
  - left. exists v. rewrite (get_embedding_hit h st w self text v Hfind). split; reflexivity.
  - right. split; [reflexivity |]. rewrite (get_embedding_miss h st w self text Hfind).
    destruct (exec h (_get_embedding_body self text) st w) as [[w1 t1] [st1 [e | v]]];
      [right; reflexivity | left; exists v; reflexivity].
Qed.

(** X11: the embedding cache never grows beyond [maxsize] = 1024 entries:
    a cache within the bound is within the bound after every call of
    [_get_embedding], whatever the call does. *)
Theorem embedding_cache_bounded :
  forall (W : Type) (h : handler W) st w self text,
    (List.length st <= maxsize)%nat ->
    (List.length (cache_of (exec h (_get_embedding self text) st w)) <= maxsize)%nat.
Proof.
  intros W h st w self text Hbound.
  destruct (cache_after_get_embedding h st w self text)
    as [[v [Hfind ->]] | [Hfind [[v ->] | ->]]].
  - unfold lru_touch. cbn [List.length].
    pose proof (lru_remove_length_found _ _ _ Hfind). lia.
  - unfold lru_store. rewrite Hfind.
    destruct (Nat.leb maxsize (List.length st)) eqn:Hfull; cbn [List.length].
    + apply Nat.leb_le in Hfull.
      assert (Hne : st <> []) by (intros ->; cbn in Hfull; unfold maxsize in Hfull; lia).
      rewrite (removelast_length st Hne). exact Hbound.
    + apply Nat.leb_gt in Hfull. lia.
  - exact Hbound.
Qed.

Lemma embedding_cache_bounded_witness :
  (List.length (@nil (lru_key * vector)) <= maxsize)%nat /\
  (List.length (cache_of (exec Model.hana (_get_embedding Toy.rm "hello") [] Toy.fresh))
   <= maxsize)%nat.
Proof.
  split; [apply Nat.le_0_l |].
  apply (embedding_cache_bounded Model.world Model.hana [] Toy.fresh Toy.rm "hello").
  apply Nat.le_0_l.
Defined.

Lemma cache_entries_after_get_embedding :
  forall (W : Type) (h : handler W) st w self text,
    let st1 := cache_of (exec h (_get_embedding self text) st w) in
    (forall key v, lru_find key st1 = Some v ->
                   key = (rm_id self, text) \/ lru_find key st = Some v) /\
    ((List.length st < maxsize)%nat ->
     forall key v, lru_find key st = Some v -> lru_find key st1 = Some v) /\
    (forall st0 last key v,
       st = (st0 ++ [last])%list ->
       lru_find key st0 = Some v -> lru_find key st1 = Some v).
Proof.
  intros W h st w self text. cbv zeta.
  assert (Hdec : forall key : lru_key,
             key = (rm_id self, text) \/ key <> (rm_id self, text)).
  { intro key. destruct (lru_key_eqb key (rm_id self, text)) eqn:E.
    - left. apply lru_key_eqb_eq. exact E.
    - right. intro H. apply lru_key_eqb_eq in H. congruence. }
  destruct (cache_after_get_embedding h st w self text)
    as [[v0 [Hfind ->]] | [Hfind [[v0 ->] | ->]]].
  - (* hit *)
    assert (Hkeep : forall key v, lru_find key st = Some v ->
                                  lru_find key (lru_touch (rm_id self, text) v0 st) = Some v).
    { intros key v Hk. destruct (Hdec key) as [-> | Hne].
      - rewrite lru_find_touch. congruence.
      - unfold lru_touch. cbn [lru_find]. rewrite (lru_key_eqb_neq _ _ Hne).
        rewrite lru_find_remove_other; assumption. }
    split; [| split].
    + intros key v Hk. destruct (Hdec key) as [-> | Hne]; [left; reflexivity | right].
      unfold lru_touch in Hk. cbn [lru_find] in Hk. rewrite (lru_key_eqb_neq _ _ Hne) in Hk.
      rewrite lru_find_remove_other in Hk; assumption.
    + intros _. exact Hkeep.
    + intros st0 last key v -> Hk. apply Hkeep, lru_find_app, Hk.
  - (* miss, stored *)
    unfold lru_store. rewrite Hfind. split; [| split].
    + intros key v Hk. destruct (Hdec key) as [-> | Hne]; [left; reflexivity | right].
      destruct (Nat.leb maxsize (List.length st)); cbn [lru_find] in Hk;
        rewrite (lru_key_eqb_neq _ _ Hne) in Hk; [apply lru_find_removelast |]; exact Hk.
    + intros Hlt key v Hk.
      assert (Hne : key <> (rm_id self, text)) by (intros ->; congruence).
      apply Nat.leb_gt in Hlt. rewrite Hlt. cbn [lru_find].
      rewrite (lru_key_eqb_neq _ _ Hne). exact Hk.
    + intros st0 last key v -> Hk.
      assert (Hne : key <> (rm_id self, text)).
      { intros ->. rewrite (lru_find_app _ st0 [last] v Hk) in Hfind. discriminate. }
      destruct (Nat.leb maxsize (List.length (st0 ++ [last])%list)); cbn [lru_find];
        rewrite (lru_key_eqb_neq _ _ Hne);
        [rewrite removelast_last; exact Hk | apply lru_find_app; exact Hk].
  - (* miss, raised *)
    split; [| split].
    + intros key v Hk. right; exact Hk.
    + intros _ key v Hk. exact Hk.
    + intros st0 last key v -> Hk. apply lru_find_app, Hk.
Qed.

(** X12: a call of [_get_embedding] leaves the other entries of the cache
    alone.  An entry found after the call is the entry of the call's own
    key or was there, with the same vector, before; below capacity no entry
    is lost; and at capacity every entry but the last, the least recently
    used one, is still found. *)
Theorem embedding_cache_keeps_entries :
  forall (W : Type) (h : handler W) st w self text,
    let st1 := cache_of (exec h (_get_embedding self text) st w) in
    (forall key v, lru_find key st1 = Some v ->
                   key = (rm_id self, text) \/ lru_find key st = Some v) /\
    ((List.length st < maxsize)%nat ->
     forall key v, lru_find key st = Some v -> lru_find key st1 = Some v) /\
    (forall st0 last key v,
       st = (st0 ++ [last])%list ->
       lru_find key st0 = Some v -> lru_find key st1 = Some v).
Proof. exact cache_entries_after_get_embedding. Qed.

(** X13: the cache is keyed by the module instance as well as the text:
    what one instance has had embedded is not served to another.  After
    any call by one instance, a call by a different instance for a text
    it has no entry for still runs the body, reading the embedder setting
    anew. *)
Theorem embedding_cache_per_instance :
  forall (W : Type) (h : handler W) st w a b text_a text,
    rm_id a <> rm_id b ->
    lru_find (rm_id b, text) st = None ->
    let st1 := cache_of (exec h (_get_embedding a text_a) st w) in
    lru_find (rm_id b, text) st1 = None /\
    forall (W' : Type) (h' : handler W') w',
      exists t, calls (trace_of (exec h' (_get_embedding b text) st1 w'))
                = settings_embedder :: t.
Proof.
  intros W h st w a b text_a text Hid Hmiss. cbv zeta.
  assert (Hnone : lru_find (rm_id b, text)
                    (cache_of (exec h (_get_embedding a text_a) st w)) = None).
  { destruct (lru_find (rm_id b, text) (cache_of (exec h (_get_embedding a text_a) st w)))
      as [v |] eqn:Hk; [| reflexivity].
    destruct (cache_entries_after_get_embedding W h st w a text_a) as [Hnew _].
    cbv zeta in Hnew. destruct (Hnew _ _ Hk) as [Heq | Hold].
    - inversion Heq. congruence.
    - congruence. }
  split; [exact Hnone |].
  intros W' h' w'. rewrite (get_embedding_miss h' _ w' b text Hnone).
  destruct (get_embedding_body_trace h'
              (cache_of (exec h (_get_embedding a text_a) st w)) w' b text) as [t [Ht _]].
  exists t.
  destruct (exec h' (_get_embedding_body b text)
              (cache_of (exec h (_get_embedding a text_a) st w)) w')
    as [[w2 t2] [st2 [e | v]]]; exact Ht.
Qed.

Lemma embedding_cache_per_instance_witness :
  rm_id Toy.rm <> 8%nat /\
  lru_find (8%nat, "hello")
    (cache_of (exec Model.hana (_get_embedding Toy.rm "hello") [] Toy.fresh))
  = None.
Proof.
  assert (Hid : rm_id Toy.rm <> rm_id {| rm_id := 8; rm_k := 5; rm_vector_store := Toy.store |})
    by (intro H; discriminate H).
  split; [exact Hid |].
  exact (proj1 (embedding_cache_per_instance Model.world Model.hana [] Toy.fresh Toy.rm
                  {| rm_id := 8; rm_k := 5; rm_vector_store := Toy.store |}
                  "hello" "hello" Hid eq_refl)).
Defined.

(** ** More on [get_vector_store] *)

Lemma provisioning_caches (c : call) : provisioning_call c -> caches_default_store c.
Proof. destruct c; intro H; try exact I; contradiction. Qed.

Lemma get_vector_store_safe : safe caches_default_store (fun _ => True) get_vector_store.
Proof.
  unfold get_vector_store.
  apply safe_try_except; [| intro; apply safe_ret; exact I].
  apply safe_bind_any; [safe_call; exact I | intro has].
  destruct has; [safe_call; exact I |].
  apply safe_bind_any; [safe_call; exact I | intro t].
  destruct (String.eqb _ _); [| apply safe_ret; exact I].
  apply safe_try_except;
    [| intro e; destruct (is_ImportError e); apply safe_ret; exact I].
  unfold environ_port, environ_get_default.
  apply safe_bind_any; [safe_call; exact I | intros _].
  apply safe_bind_any; [safe_call; exact I | intro host].
  apply safe_bind_any; [prove_safe_any; exact I | intro port].
  apply safe_bind_any; [safe_call; exact I | intro user].
  apply safe_bind_any; [safe_call; exact I | intro password].
  apply safe_bind_any; [prove_safe_any; exact I | intro schema].
  apply safe_bind_any; [prove_safe_any; exact I | intro table].
  apply safe_bind_any; [safe_call; exact I | intros _].
  apply safe_bind_any; [safe_call; exact I | intro conn].
  eapply safe_bind.
  - eapply safe_calls; [apply hana_init_given_connection | apply provisioning_caches].
  - cbn beta. intros s ->.
    apply safe_bind_any; [| intro; apply safe_ret; exact I].
    safe_call. cbn [caches_default_store].
    eexists; exists conn. repeat split.
Qed.

(** X14: [get_vector_store] never raises, and what it writes to
    [dspy.settings.vector_store] is always a [HanaVectorStore] on a fresh
    connection, built with the defaults of the constructor: it has no
    host, user or password, port 443, and dimension 1536 whatever the
    table's. *)
Theorem get_vector_store_caches_default_store :
  forall (W : Type) (h : handler W) st w,
    (exists o, outcome_of (exec h get_vector_store st w) = inr o) /\
    Forall caches_default_store (calls (trace_of (exec h get_vector_store st w))).
Proof.
  intros W h st w. split.
  - apply get_vector_store_never_raises.
  - apply (get_vector_store_safe W h st w).
Qed.

(** X15: what is in the settings wins, and nothing is created unasked.
    When [dspy.settings] has the attribute [vector_store],
    [get_vector_store] returns its value ([None] when reading it fails)
    and makes no other call; when it has not and the environment variable
    [DSPY_VECTOR_STORE] is unset or is not [sap_hana] in whatever case, it
    returns [None] without connecting. *)
Theorem get_vector_store_lookup :
  forall (W : Type) (h : handler W) st w,
    (forall w1,
       h settings_has_vector_store w = (w1, inr true) ->
       exec h get_vector_store st w
       = (fst (h settings_vector_store w1),
          [(settings_has_vector_store, None);
           (settings_vector_store, failure (snd (h settings_vector_store w1)))],
          (st, inr match snd (h settings_vector_store w1) with
                   | inr o => o
                   | inl _ => None
                   end))) /\
    (forall w1 w2 v,
       h settings_has_vector_store w = (w1, inr false) ->
       h (environ_get "DSPY_VECTOR_STORE") w1 = (w2, inr v) ->
       String.eqb (lower match v with Some s => s | None => "" end) "sap_hana" = false ->
       exec h get_vector_store st w
       = (w2,
          [(settings_has_vector_store, None); (environ_get "DSPY_VECTOR_STORE", None)],
          (st, inr None))).
Proof.
  intros W h st w. split.
  - intros w1 Hhas. unfold get_vector_store. exec_norm. rewrite Hhas. exec_norm.
    destruct (h settings_vector_store w1) as [w2 [e | o]]; exec_norm; reflexivity.
  - intros w1 w2 v Hhas Henv Hneq. unfold get_vector_store. exec_norm.
    rewrite Hhas. exec_norm. rewrite Henv. exec_norm. rewrite Hneq. exec_norm.
    reflexivity.
Qed.

(** ** More on [POST /search] *)

(** X16: the failures of [POST /search] before the search.  With no store
    the endpoint ends in [503] and has called nothing but
    [get_vector_store]; with a store but no embedder, or an embedder that
    fails or returns nothing, it ends in [500] with the cause in the
    detail, and neither the clock nor the store has been touched. *)
Theorem vector_store_search_early_failures :
  forall (W : Type) (h : handler W) st w request w1 t1 st1 vs,
    exec h get_vector_store st w = (w1, t1, (st1, inr vs)) ->
    match vs with
    | None =>
        exec h (vector_store_search request) st w
        = (w1, t1, (st1, inl (HTTPException 503 "Vector store is not configured")))
    | Some o =>
        match h settings_embedder w1 with
        | (w2, inl e) =>
            exec h (vector_store_search request) st w
            = (w2, (t1 ++ [(settings_embedder, Some e)])%list,
               (st1, inl (HTTPException 500
                            ("Embedder not configured or not working: " ++ str_exn e))))
        | (w2, inr None) =>
            exec h (vector_store_search request) st w
            = (w2, (t1 ++ [(settings_embedder, None)])%list,
               (st1, inl (HTTPException 500
                   "Embedder not configured or not working: No embedder configured in DSPy settings")))
        | (w2, inr (Some emb)) =>
            match h (embedder_encode emb [rq_query request]) w2 with
            | (w3, inl e) =>
                exec h (vector_store_search request) st w
                = (w3,
                   (t1 ++ [(settings_embedder, None);
                           (embedder_encode emb [rq_query request], Some e)])%list,
                   (st1, inl (HTTPException 500
                                ("Error generating embedding: " ++ str_exn e))))
            | (w3, inr []) =>
                exec h (vector_store_search request) st w
                = (w3,
                   (t1 ++ [(settings_embedder, None);
                           (embedder_encode emb [rq_query request], None)])%list,
                   (st1, inl (HTTPException 500
                                "Error generating embedding: index 0 is out of bounds")))
            | (w3, inr (_ :: _)) => True
            end
        end
    end.
Proof.
  intros W h st w request w1 t1 st1 vs Hget. unfold vector_store_search.
  rewrite exec_try_except, exec_bind, Hget.
  destruct vs as [o |]; exec_norm;
    [| rewrite exec_http_errors; cbn [is_HTTPException]; rewrite <- ?app_assoc, ?app_nil_r; reflexivity].
  destruct (h settings_embedder w1) as [w2 [e | [emb |]]]; exec_norm;
    try (rewrite exec_http_errors; cbn [is_HTTPException app]; rewrite <- ?app_assoc, ?app_nil_r;
         reflexivity).
  destruct (h (embedder_encode emb [rq_query request]) w2) as [w3 [e | [| v vs]]];
    exec_norm; try exact I;
    rewrite exec_http_errors; cbn [is_HTTPException app]; rewrite <- ?app_assoc, ?app_nil_r; reflexivity.
Qed.

Lemma vector_store_search_early_failures_witness :
  exec Model.hana get_vector_store [] Toy.fresh
  = (Toy.fresh,
     [(settings_has_vector_store, None); (environ_get "DSPY_VECTOR_STORE", None)],
     ([], inr None)) /\
  outcome_of (exec Model.hana
                (vector_store_search {| rq_query := "hello"; rq_k := 5;
                                        rq_filter_dict := None |}) [] Toy.fresh)
  = inl (HTTPException 503 "Vector store is not configured").
Proof.
  split; [reflexivity |].
  rewrite (vector_store_search_early_failures Model.world Model.hana [] Toy.fresh
             {| rq_query := "hello"; rq_k := 5; rq_filter_dict := None |}
             Toy.fresh
             [(settings_has_vector_store, None); (environ_get "DSPY_VECTOR_STORE", None)]
             [] None eq_refl).
  reflexivity.
Defined.

(** ** [FrontendConfig.to_dict] *)

Lemma dict_lookup_set_same (d : dict) (key : string) (v : value) :
  dict_lookup (dict_set d key v) key = Some v.
Proof.
  induction d as [| [k v'] d IH]; cbn [dict_set dict_lookup].
  - rewrite String.eqb_refl. reflexivity.
  - destruct (String.eqb k key) eqn:E; cbn [dict_lookup]; rewrite E; [reflexivity | exact IH].
Qed.

Lemma dict_lookup_set_other (d : dict) (key key' : string) (v : value) :
  key' <> key -> dict_lookup (dict_set d key v) key' = dict_lookup d key'.
Proof.
  intro Hne. induction d as [| [k v'] d IH]; cbn [dict_set dict_lookup].
  - destruct (String.eqb key key') eqn:E; [| reflexivity].
    apply String.eqb_eq in E. congruence.
  - destruct (String.eqb k key) eqn:E; cbn [dict_lookup].
    + apply String.eqb_eq in E. subst k.
      destruct (String.eqb key key') eqn:E'; [| reflexivity].
      apply String.eqb_eq in E'. congruence.
    + rewrite IH. reflexivity.
Qed.

Lemma dict_lookup_without (d : dict) (key key' : string) :
  dict_lookup (filter (fun kv => negb (String.eqb (fst kv) key)) d) key'
  = if String.eqb key key' then None else dict_lookup d key'.
Proof.
  induction d as [| [k v] d IH]; cbn [filter dict_lookup fst].
  - destruct (String.eqb key key'); reflexivity.
  - destruct (String.eqb k key) eqn:E; cbn [negb dict_lookup].
    + apply String.eqb_eq in E. subst k. rewrite IH.
      destruct (String.eqb key key'); reflexivity.
    + rewrite IH. destruct (String.eqb key key') eqn:E'; [| reflexivity].
      apply String.eqb_eq in E'. subst key'. rewrite E. reflexivity.
Qed.

(** X17: [to_dict] never shows the JWT secret.  Under [jwt_secret] the
    dict has the placeholder [***HIDDEN***] when a non-empty secret is set
    and no entry at all otherwise; every other field is there with the
    value it has in the configuration. *)
Theorem to_dict_hides_jwt_secret :
  forall self : FrontendConfig,
    dict_lookup (to_dict self) "jwt_secret"
    = (if truthy_str (fc_jwt_secret self) then Some (VStr "***HIDDEN***") else None) /\
    (forall key, key <> "jwt_secret" ->
                 dict_lookup (to_dict self) key = dict_lookup (config__dict__ self) key).
Proof.
  intro self. unfold to_dict. cbv zeta. split.
  - destruct (truthy_str (fc_jwt_secret self)).
    + apply dict_lookup_set_same.
    + rewrite dict_lookup_without, String.eqb_refl. reflexivity.
  - intros key Hne.
    assert (E : String.eqb "jwt_secret" key = false).
    { destruct (String.eqb "jwt_secret" key) eqn:E; [| reflexivity].
      apply String.eqb_eq in E. congruence. }
    destruct (truthy_str (fc_jwt_secret self)).
    + rewrite (dict_lookup_set_other _ "jwt_secret" key _ Hne), dict_lookup_without, E.
      reflexivity.
    + rewrite dict_lookup_without, E. reflexivity.
Qed.
